(** * Dataset cache transport and trading-pair filters

    A shallow embedding of [tradingstrategy/transport/cache.py]
    ([CachedHTTPTransport]) and [tradingstrategy/utils/token_filter.py]
    (the pair filtering pipeline), with the properties the specification
    states about them.

    Conventions.
    - Python [str] values are byte strings holding the UTF-8 encoding of the
      text.  A code point is above 127 exactly when its encoding uses bytes
      above 127, and [startswith], [==] and [in] agree on both views.
    - Python exceptions are values of [PyExc]; a call that may raise returns
      a [Result].
    - A [pd.DataFrame] of trading pairs is the list of its rows, each row
      carrying its index label.
    - Wall-clock readings, file modification times and [timedelta]s are
      integers counting microseconds, the resolution of [datetime]. *)

From Stdlib Require Import ZArith Floats Ascii Sorted.
From stdpp Require Import gmap strings list.

Set Warnings "-inexact-float".
Local Open Scope string_scope.
Local Open Scope Z_scope.

(** ** Python runtime *)

Module Py.

Inductive PyExc :=
| AssertionError (msg : string)
| TypeError
| ValueError
| OverflowError
| IndexError
| IndexingError
| FileNotFoundError
| FileExistsError
| NotADirectoryError
| IsADirectoryError
| JSONDecodeError
| ConnectionError
| APIError (text : string).

Inductive Result (A : Type) :=
| Ok (a : A)
| Raise (e : PyExc).
Arguments Ok {A} a.
Arguments Raise {A} e.

Definition bind {A B} (r : Result A) (k : A → Result B) : Result B :=
  match r with
  | Ok a => k a
  | Raise e => Raise e
  end.

(** Code that prints, touches the file system or calls out threads a state
    [S] and may raise: the state reached when an exception is raised is kept,
    as the effects performed before a Python exception are. *)
Definition M (S A : Type) : Type := S → Result A * S.

#[global] Instance M_ret {S} : MRet (M S) := λ A a s, (Ok a, s).
#[global] Instance M_bind {S} : MBind (M S) := λ A B k m s,
  match m s with
  | (Ok a, s') => k a s'
  | (Raise e, s') => (Raise e, s')
  end.

Definition lift {S A} (r : Result A) : M S A := λ s, (r, s).
Definition raise {S A} (e : PyExc) : M S A := λ s, (Raise e, s).
Definition modify {S} (f : S → S) : M S unit := λ s, (Ok (), f s).

(** A [Collection] argument remembers the concrete container it was built
    with: some callees assert on [type(x)]. *)
Inductive PyColl (A : Type) :=
| PyList (l : list A)
| PySet (l : list A)
| PyTuple (l : list A).
Arguments PyList {A} l.
Arguments PySet {A} l.
Arguments PyTuple {A} l.

Definition items {A} (c : PyColl A) : list A :=
  match c with PyList l | PySet l | PyTuple l => l end.

(** [type(c) in (list, set)] *)
Definition is_list_or_set {A} (c : PyColl A) : bool :=
  match c with PyList _ | PySet _ => true | PyTuple _ => false end.

(** Truth value of a container: non-empty. *)
Definition coll_bool {A} (c : PyColl A) : bool :=
  match items c with [] => false | _ :: _ => true end.

(** [x in xs] / [Series.isin(xs)] for one value. *)
Definition isin `{EqDecision A} (x : A) (xs : list A) : bool :=
  bool_decide (x ∈ xs).

(** [s.startswith(prefix)] *)
Fixpoint startswith (s prefix : string) {struct prefix} : bool :=
  match prefix, s with
  | EmptyString, _ => true
  | String a prefix', String b s' => bool_decide (a = b) && startswith s' prefix'
  | String _ _, EmptyString => false
  end.

(** [any(ord(char) > 127 for char in text)] *)
Definition any_ord_above_127 (text : string) : bool :=
  existsb (λ c, (127 <? Ascii.nat_of_ascii c)%nat) (String.list_ascii_of_string text).

(** [int(f)] for a binary64 float: truncation towards zero; raises on
    infinities and NaN. *)
Definition int_of_float (f : float) : Result Z :=
  match Prim2SF f with
  | S754_zero _ => Ok 0
  | S754_finite s m e =>
      let v := if 0 <=? e then Z.pos m * 2 ^ e else Z.pos m / 2 ^ (- e) in
      Ok (if s then - v else v)
  | S754_infinity _ => Raise OverflowError
  | S754_nan => Raise ValueError
  end.

(** Values handed to library calls that accept any object. *)
Inductive PyObj :=
| PyStr (s : string)
| PyTimedelta (microseconds : Z).

(** What the code takes from its environment and the sources do not define:
    the Unicode case mappings of [str], the stablecoin symbol list of
    [tradingstrategy.stablecoin], JSON values with the decoder behind
    [Response.json()] ([None] for text that does not decode), and the
    process's working directory (as path components under the root) and
    home directory. *)
Class Environment := {
  str_upper : string → string;
  str_lower : string → string;
  ALL_STABLECOIN_LIKE : list string;
  Json : Type;
  json_loads : string → option Json;
  cwd : list string;
  HOME : string;
}.

End Py.
Import Py.

(** ** tradingstrategy/utils/token_filter.py *)

Module TokenFilter.

Definition DEFAULT_GOOD_QUOTE_TOKENS : list string :=
  ["USDC"; "USDT"; "WETH"; "WMATIC"; "WAVAX"; "WBNB"; "WARB"].

Definition DERIVATIVE_TOKEN_PREFIXES : list string :=
  ["wst"; "os"; "3Crv"; "gOHM"; "st"; "bl"; "ETH2x"].

Definition REBASE_TOKENS : list string := ["OHM"; "KLIMA"].

(** One row of the pairs table, with its index label [idx]. *)
Record DEXPair := {
  idx : Z;
  pair_id : Z;
  chain_id : Z;
  exchange_id : Z;
  fee : Z;
  token0_symbol : string;
  token1_symbol : string;
  token0_address : string;
  token1_address : string;
  quote_token_symbol : string;
}.

Abbreviation DataFrame := (list DEXPair).

(** [tradingstrategy.chain.ChainId]: an enum member with its [value], its
    [get_slug()] and its truth value (the enum class is declared outside
    these sources). *)
Record ChainId := {
  chain_value : Z;
  chain_slug : string;
  chain_bool : bool;
}.

(** [tradingstrategy.exchange.Exchange], of which only the primary key is
    read. *)
Record Exchange := { exchange_pk : Z }.

(** The [pair_ids_in_candles] argument: a collection or a [pd.Series]. *)
Inductive CandleIds :=
| IdsColl (c : PyColl Z)
| IdsSeries (values : list Z).

Inductive StablecoinFilteringMode :=
| only_stablecoin_pairs
| only_volatile_pairs
| all_pairs.

(** *** Boolean indexing *)

(** A boolean [pd.Series]: index labels with their values. *)
Definition BoolSeries := list (Z * bool).

(** [pairs[column-expression]]: the mask computed row by row from a frame. *)
Definition mask_of (df : DataFrame) (p : DEXPair → bool) : BoolSeries :=
  map (λ r, (idx r, p r)) df.

(** Positional selection of the rows whose flag is set. *)
Fixpoint take_rows (df : DataFrame) (flags : list bool) : DataFrame :=
  match df, flags with
  | r :: df', b :: flags' =>
      if b then r :: take_rows df' flags' else take_rows df' flags'
  | _, _ => []
  end.

(** Every value the key holds for a label. *)
Definition values_at (key : BoolSeries) (label : Z) : list bool :=
  map snd (List.filter (λ kv, bool_decide (kv.1 = label)) key).

(** [df.loc[key]] for a boolean Series [key].  When the key's index is the
    frame's index the flags are used as they are; otherwise pandas reindexes
    the key to the frame's index, raising [IndexingError] for a label the
    key does not have and [IndexError] when the reindexed key does not have
    one flag per row. *)
Definition loc_bool (df : DataFrame) (key : BoolSeries) : Result DataFrame :=
  if decide (map fst key = map idx df) then Ok (take_rows df (map snd key))
  else
    let found := map (λ r, values_at key (idx r)) df in
    if existsb (λ vs, match vs with [] => true | _ => false end) found
    then Raise IndexingError
    else
      let flags := concat found in
      if decide (length flags = length df) then Ok (take_rows df flags)
      else Raise IndexError.

(** [pairs.loc[mask]] / [pairs[mask]] with a mask computed from [pairs]
    itself: the rows that satisfy the predicate, in order. *)
Definition loc (pairs : DataFrame) (p : DEXPair → bool) : DataFrame :=
  List.filter p pairs.

(** *** Token classification *)

Definition is_derivative (token_symbol : string) : bool :=
  existsb (λ prefix, startswith token_symbol prefix) DERIVATIVE_TOKEN_PREFIXES.

Definition is_rebase `{Environment} (token_symbol : string) : bool :=
  isin (str_upper token_symbol) REBASE_TOKENS.

(** *** Filters *)

Definition filter_for_blacklisted_tokens `{Environment}
    (pairs : DataFrame) (blacklisted_tokens : PyColl string) : Result DataFrame :=
  if negb (is_list_or_set blacklisted_tokens)
  then Raise (AssertionError "Received")
  else
    let blacklisted_tokens := map str_lower (items blacklisted_tokens) in
    let blacklisted_mask r :=
      isin (token0_address r) blacklisted_tokens
      || isin (str_lower (token0_symbol r)) blacklisted_tokens
      || isin (token1_address r) blacklisted_tokens
      || isin (str_lower (token1_symbol r)) blacklisted_tokens in
    Ok (loc pairs (λ r, negb (blacklisted_mask r))).

Definition filter_for_nonascii_tokens (pairs : DataFrame) : DataFrame :=
  let has_non_ascii := any_ord_above_127 in
  let my_filter r :=
    has_non_ascii (token0_symbol r) || has_non_ascii (token1_symbol r) in
  loc pairs (λ r, negb (my_filter r)).

Definition filter_for_stablecoins `{Environment}
    (pairs : DataFrame) (mode : StablecoinFilteringMode) : DataFrame :=
  let both_stable r :=
    isin (token0_symbol r) ALL_STABLECOIN_LIKE
    && isin (token1_symbol r) ALL_STABLECOIN_LIKE in
  match mode with
  | all_pairs => pairs
  | only_stablecoin_pairs => loc pairs both_stable
  | only_volatile_pairs => loc pairs (λ r, negb (both_stable r))
  end.

Definition filter_for_derivatives (pairs : DataFrame) (derivatives : bool)
    : DataFrame :=
  let row_filter r :=
    if derivatives
    then is_derivative (token0_symbol r) || is_derivative (token1_symbol r)
    else negb (is_derivative (token0_symbol r))
         && negb (is_derivative (token1_symbol r)) in
  loc pairs row_filter.

Definition filter_for_rebases `{Environment} (pairs : DataFrame) (rebase : bool)
    : DataFrame :=
  let row_filter r :=
    if rebase
    then is_rebase (token0_symbol r) || is_rebase (token1_symbol r)
    else negb (is_rebase (token0_symbol r))
         && negb (is_rebase (token1_symbol r)) in
  loc pairs row_filter.

Definition filter_for_chain (pairs : DataFrame) (chain : ChainId) : DataFrame :=
  loc pairs (λ r, bool_decide (chain_id r = chain_value chain)).

Definition filter_for_exchanges (pairs : DataFrame) (exchanges : PyColl Exchange)
    : DataFrame :=
  let exchange_ids := map exchange_pk (items exchanges) in
  loc pairs (λ r, isin (exchange_id r) exchange_ids).

Definition filter_for_exchange_ids (pairs : DataFrame) (exchange_ids : PyColl Z)
    : DataFrame :=
  loc pairs (λ r, isin (exchange_id r) (items exchange_ids)).

(** [fee] is a fraction given as a float, e.g. [0.0005] for the 5 BPS tier. *)
Definition filter_for_trading_fee (pairs : DataFrame) (fee_pct : float)
    : Result DataFrame :=
  if negb ((0 <? fee_pct)%float && (fee_pct <? 1)%float)
  then Raise (AssertionError "Got fee")
  else
    bind (int_of_float (fee_pct * 10000)%float) (λ int_fee,
      Ok (loc pairs (λ r, bool_decide (fee r = int_fee)))).

(** The steps of [filter_pairs_default] report through the injected
    [verbose_print], an arbitrary effect on the caller's output state. *)
Definition filter_pairs_default `{Environment} {S : Type}
    (pairs_df : DataFrame)
    (verbose_print : string → nat → S → S)
    (max_trading_pair_fee_bps : option Z)
    (blacklisted_token_symbols : option (PyColl string))
    (good_quote_tokes : PyColl string)
    (exchanges : option (PyColl Exchange))
    (exchange_ids : option (PyColl Z))
    (pair_ids_in_candles : option CandleIds)
    (chain : option ChainId) : M S DataFrame :=
  let print x y : M S unit := modify (verbose_print x y) in
  (* [assert type(max_trading_pair_fee_bps) == int] holds of every [Z] *)
  let tradeable_pairs_df := pairs_df in
  print "Pairs in the input dataset" (length tradeable_pairs_df);;
  tradeable_pairs_df ←
    match chain with
    | Some c =>
        if chain_bool c then
          let df := filter_for_chain pairs_df c in
          print ("Pairs on chain " +:+ chain_slug c) (length df);;
          mret df
        else mret tradeable_pairs_df
    | None => mret tradeable_pairs_df
    end;
  tradeable_pairs_df ←
    match max_trading_pair_fee_bps with
    | Some bps =>
        if bool_decide (bps ≠ 0) then
          df ← lift (loc_bool tradeable_pairs_df
                       (mask_of pairs_df (λ r, bool_decide (fee r ≤ bps))));
          print "Pairs having a good fee" (length df);;
          mret df
        else mret tradeable_pairs_df
    | None => mret tradeable_pairs_df
    end;
  tradeable_pairs_df ←
    match pair_ids_in_candles with
    | Some (IdsSeries _) => raise ValueError
    | Some (IdsColl ids) =>
        if coll_bool ids then
          let df := loc tradeable_pairs_df (λ r, isin (pair_id r) (items ids)) in
          print "Pairs with candle data" (length df);;
          mret df
        else mret tradeable_pairs_df
    | None => mret tradeable_pairs_df
    end;
  tradeable_pairs_df ←
    match exchanges with
    | Some es =>
        if coll_bool es then
          let df := filter_for_exchanges tradeable_pairs_df es in
          print "Pairs matching exchange" (length df);;
          mret df
        else mret tradeable_pairs_df
    | None => mret tradeable_pairs_df
    end;
  tradeable_pairs_df ←
    match exchange_ids with
    | Some ids =>
        if coll_bool ids then
          let df := filter_for_exchange_ids tradeable_pairs_df ids in
          print "Pairs matching exchange" (length df);;
          mret df
        else mret tradeable_pairs_df
    | None => mret tradeable_pairs_df
    end;
  let tradeable_pairs_df :=
    filter_for_stablecoins tradeable_pairs_df only_volatile_pairs in
  print "Pairs that are not stable-stable" (length tradeable_pairs_df);;
  let tradeable_pairs_df := filter_for_derivatives tradeable_pairs_df false in
  print "Pairs that are not derivative tokens" (length tradeable_pairs_df);;
  let tradeable_pairs_df := filter_for_rebases tradeable_pairs_df false in
  print "Pairs that are not rebase tokens" (length tradeable_pairs_df);;
  let tradeable_pairs_df :=
    loc tradeable_pairs_df
        (λ r, isin (quote_token_symbol r) (items good_quote_tokes)) in
  print "Pairs with good quote token" (length tradeable_pairs_df);;
  tradeable_pairs_df ←
    match blacklisted_token_symbols with
    | Some bl =>
        if coll_bool bl then
          df ← lift (filter_for_blacklisted_tokens tradeable_pairs_df bl);
          print "Pairs without blacklisted base token" (length df);;
          mret df
        else mret tradeable_pairs_df
    | None => mret tradeable_pairs_df
    end;
  let tradeable_pairs_df := filter_for_nonascii_tokens tradeable_pairs_df in
  print "Pairs with clean ASCII token name" (length tradeable_pairs_df);;
  mret tradeable_pairs_df.

End TokenFilter.

(** ** os.path, for POSIX paths *)

Module OsPath.

(** [path.split("/")] *)
Fixpoint split_sep (path : string) : list string :=
  match path with
  | EmptyString => [""]
  | String c rest =>
      if bool_decide (c = "/"%char) then "" :: split_sep rest
      else match split_sep rest with
           | comp :: comps => String c comp :: comps
           | [] => [String c ""]
           end
  end.

(** ["/".join(comps)] *)
Fixpoint join_sep (comps : list string) : string :=
  match comps with
  | [] => ""
  | [comp] => comp
  | comp :: comps' => comp +:+ "/" +:+ join_sep comps'
  end.

Fixpoint endswith_sep (path : string) : bool :=
  match path with
  | EmptyString => false
  | String c EmptyString => bool_decide (c = "/"%char)
  | String _ rest => endswith_sep rest
  end.

(** [path.rstrip("/")] *)
Fixpoint rstrip_sep (path : string) : string :=
  match path with
  | EmptyString => ""
  | String c rest =>
      let rest' := rstrip_sep rest in
      if bool_decide (rest' = "") && bool_decide (c = "/"%char) then ""
      else String c rest'
  end.

Definition isabs (path : string) : bool := startswith path "/".

(** [os.path.join(a, b)] *)
Definition join (a b : string) : string :=
  if startswith b "/" then b
  else if bool_decide (a = "") || endswith_sep a then a +:+ b
  else a +:+ "/" +:+ b.

(** [os.path.normpath(path)] *)
Definition normpath (path : string) : string :=
  if bool_decide (path = "") then "."
  else
    let initial_slashes : nat :=
      if startswith path "/" then
        if startswith path "//" && negb (startswith path "///")
        then 2%nat else 1%nat
      else 0%nat in
    let step (new_comps : list string) (comp : string) : list string :=
      if bool_decide (comp = "") || bool_decide (comp = ".") then new_comps
      else if bool_decide (comp ≠ "..")
              || (bool_decide (initial_slashes = 0%nat)
                  && bool_decide (new_comps = []))
              || (bool_decide (new_comps ≠ [])
                  && bool_decide (last new_comps = Some ".."))
      then (new_comps ++ [comp])%list
      else if bool_decide (new_comps ≠ []) then removelast new_comps
      else new_comps in
    let comps := fold_left step (split_sep path) [] in
    let path := join_sep comps in
    let path :=
      match initial_slashes with
      | 0%nat => path
      | 1%nat => "/" +:+ path
      | _ => "//" +:+ path
      end in
    if bool_decide (path = "") then "." else path.

(** [os.getcwd()] *)
Definition getcwd `{Environment} : string := "/" +:+ join_sep cwd.

(** [os.path.abspath(path)] *)
Definition abspath `{Environment} (path : string) : string :=
  normpath (if isabs path then path else join getcwd path).

(** [os.path.expanduser(path)] for the current user. *)
Definition expanduser `{Environment} (path : string) : string :=
  match path with
  | String "~" rest =>
      if bool_decide (rest = "") || startswith rest "/" then
        let expanded := rstrip_sep HOME +:+ rest in
        if bool_decide (expanded = "") then "/" else expanded
      else path
  | _ => path
  end.

End OsPath.

(** ** tradingstrategy/transport/cache.py *)

Module Cache.
Import OsPath.

(** *** The world outside the process *)

Inductive Node :=
| Dir (mtime : Z)
| File (content : string) (mtime : Z).

Definition st_mtime (n : Node) : Z :=
  match n with Dir mtime | File _ mtime => mtime end.

Record Response := {
  status_code : Z;
  text : string;
}.

Record Request := {
  method : string;
  url : string;
  params : option (gmap string string);
  headers : gmap string string;
}.

(** The file system maps absolute normalised paths to what is there;
    [clock] is the local wall-clock reading; [http] is what the network
    answers to a request, [None] when no response arrives. *)
Record World := {
  fs : gmap string Node;
  clock : Z;
  http : Request → option Response;
}.

Definition with_fs (w : World) (fs' : gmap string Node) : World :=
  {| fs := fs'; clock := clock w; http := http w |}.

(** What the operating system finds at a path. *)
Definition os_lookup `{Environment} (w : World) (path : string) : option Node :=
  fs w !! abspath path.

(** The directories [os.makedirs] has to find or make for an absolute
    normalised path: its ancestors below the root, then the path. *)
Fixpoint dirs_upto (seen rest : string) : list string :=
  match rest with
  | EmptyString => [seen]
  | String c rest' =>
      if bool_decide (c = "/"%char) then
        ((if bool_decide (rstrip_sep seen = "") then [] else [seen])
         ++ dirs_upto (seen +:+ "/") rest')%list
      else dirs_upto (seen +:+ String c "") rest'
  end.

(** Find or make each directory in turn, stamping a new one with the
    clock; a file in the way raises, [FileExistsError] at the path itself
    and [NotADirectoryError] above it. *)
Fixpoint mkdirs (dirs : list string) (w : World) : Result unit * World :=
  match dirs with
  | [] => (Ok (), w)
  | d :: rest =>
      match fs w !! d with
      | None => mkdirs rest (with_fs w (<[d := Dir (clock w)]> (fs w)))
      | Some (Dir _) => mkdirs rest w
      | Some (File _ _) =>
          (Raise (match rest with
                  | [] => FileExistsError
                  | _ => NotADirectoryError
                  end), w)
      end
  end.

(** [os.makedirs(name, exist_ok=True)] *)
Definition makedirs `{Environment} (name : string) : M World unit :=
  mkdirs (dirs_upto "" (abspath name)).

(** [shutil.rmtree(path)]: the argument must be a path. *)
Definition rmtree `{Environment} (path : PyObj) : M World unit :=
  match path with
  | PyStr p => λ w,
      let root := abspath p in
      match fs w !! root with
      | None => (Raise FileNotFoundError, w)
      | Some (File _ _) => (Raise NotADirectoryError, w)
      | Some (Dir _) =>
          let under (k : string) :=
            bool_decide (k = root) || startswith k (root +:+ "/") in
          (Ok (), with_fs w (filter (λ kv, under kv.1 = false) (fs w)))
      end
  | PyTimedelta _ => raise TypeError
  end.

(** An open binary file: where it is and what reading it gives. *)
Record FileHandle := {
  h_path : string;
  h_content : string;
}.

(** [open(path, "rb")] *)
Definition open_rb `{Environment} (w : World) (path : string)
    : Result FileHandle :=
  match os_lookup w path with
  | None => Raise FileNotFoundError
  | Some (Dir _) => Raise IsADirectoryError
  | Some (File content _) => Ok {| h_path := path; h_content := content |}
  end.

(** *** requests *)

Definition Hook : Type := Response → Result (option Response).

Record Session := {
  session_headers : gmap string string;
  session_hooks : gmap string Hook;
}.

(** [requests.Session()]: no extra headers, no hooks. *)
Definition new_session : Session :=
  {| session_headers := ∅; session_hooks := ∅ |}.

(** [requests.hooks.dispatch_hook]: a hook may replace the response or
    raise. *)
Definition dispatch_hook (key : string) (hooks : gmap string Hook)
    (hook_data : Response) : Result Response :=
  match hooks !! key with
  | Some hook =>
      bind (hook hook_data) (λ replaced,
        Ok (match replaced with Some r => r | None => hook_data end))
  | None => Ok hook_data
  end.

(** [Session.request(method, url, params=params)] *)
Definition session_request (s : Session) (method_ url_ : string)
    (params_ : option (gmap string string)) (w : World) : Result Response :=
  let req := {| method := method_; url := url_; params := params_;
                headers := session_headers s |} in
  match http w req with
  | None => Raise ConnectionError
  | Some r => dispatch_hook "response" (session_hooks s) r
  end.

(** [Response.json()] *)
Definition json `{Environment} (r : Response) : Result Json :=
  match json_loads (text r) with
  | Some v => Ok v
  | None => Raise JSONDecodeError
  end.

(** *** CachedHTTPTransport *)

Definition DownloadFunc : Type :=
  Session → string → string → option (gmap string string) → M World unit.

Record CachedHTTPTransport := {
  download_func : DownloadFunc;
  endpoint : string;
  cache_period : Z;
  cache_path : string;
  requests : Session;
}.

(** One call of the download function, as a test double would count it. *)
Record DownloadCall := {
  dl_path : string;
  dl_url : string;
  dl_params : option (gmap string string);
}.

Record St := {
  world : World;
  downloads : list DownloadCall;
}.

(** Code that only touches the world. *)
Definition in_world {A} (m : M World A) : M St A := λ st,
  let '(r, w') := m (world st) in
  (r, {| world := w'; downloads := downloads st |}).

(** Code that only reads the world. *)
Definition read {A} (f : World → Result A) : M St A := λ st,
  (f (world st), st).

(** The download calls made while [m] runs from [st]. *)
Definition downloads_during {A} (m : M St A) (st : St) : list DownloadCall :=
  drop (length (downloads st)) (downloads (m st).2).

(** [datetime.timedelta(days=3)] *)
Definition DEFAULT_CACHE_PERIOD : Z := 3 * 86400 * 1000000.

Definition exception_hook (response : Response) : Result (option Response) :=
  if bool_decide (400 ≤ status_code response)
  then Raise (APIError (text response))
  else Ok None.

Definition create_requests_client (api_key : option string) : Session :=
  let session := new_session in
  let headers' :=
    match api_key with
    | Some key =>
        if bool_decide (key ≠ "")
        then <["Authorization" := key]> (session_headers session)
        else session_headers session
    | None => session_headers session
    end in
  {| session_headers := headers';
     session_hooks := {[ "response" := exception_hook ]} |}.

(** [CachedHTTPTransport.__init__] *)
Definition __init__ `{Environment} (download_func_ : DownloadFunc)
    (endpoint_ : option string) (cache_period_ : Z)
    (cache_path_ : option string) (api_key : option string)
    : CachedHTTPTransport :=
  {| download_func := download_func_;
     endpoint :=
       match endpoint_ with
       | Some e =>
           if bool_decide (e ≠ "") then e
           else "https://candlelightdinner.tradingstrategy.ai"
       | None => "https://candlelightdinner.tradingstrategy.ai"
       end;
     cache_period := cache_period_;
     cache_path :=
       match cache_path_ with
       | Some p =>
           if bool_decide (p ≠ "") then p
           else expanduser "~/.cache/trading-strategy"
       | None => expanduser "~/.cache/trading-strategy"
       end;
     requests := create_requests_client api_key |}.

Section Methods.
Context `{Environment} (self : CachedHTTPTransport).

Definition get_abs_cache_path : string := abspath (cache_path self).

Definition get_cached_file_path (fname : string) : string :=
  join get_abs_cache_path fname.

Definition get_cached_item (fname : string) (w : World)
    : Result (option FileHandle) :=
  let path := get_cached_file_path fname in
  match os_lookup w path with
  | None => Ok None
  | Some f =>
      let mtime := st_mtime f in
      if bool_decide (clock w - mtime > cache_period self) then Ok None
      else bind (open_rb w path) (λ h, Ok (Some h))
  end.

Definition purge_cache : M St unit :=
  in_world (rmtree (PyTimedelta (cache_period self))).

(** [self.download_func(self.requests, fpath, url, params)], counted. *)
Definition call_download_func (fpath url_ : string)
    (params_ : option (gmap string string)) : M St unit := λ st,
  let '(r, w') := download_func self (requests self) fpath url_ params_
                    (world st) in
  (r, {| world := w';
         downloads := (downloads st
                       ++ [{| dl_path := fpath; dl_url := url_;
                              dl_params := params_ |}])%list |}).

Definition save_response (fpath api_path : string)
    (params_ : option (gmap string string)) : M St unit :=
  in_world (makedirs get_abs_cache_path);;
  let url_ := endpoint self +:+ "/" +:+ api_path in
  call_download_func fpath url_ params_.

Definition get_json_response (api_path : string)
    (params_ : option (gmap string string)) (w : World) : Result Json :=
  let url_ := endpoint self +:+ "/" +:+ api_path in
  bind (session_request (requests self) "GET" url_ params_ w) json.

Definition post_json_response (api_path : string)
    (params_ : option (gmap string string)) (w : World) : Result Json :=
  let url_ := endpoint self +:+ "/" +:+ api_path in
  bind (session_request (requests self) "POST" url_ params_ w) json.

Definition fetch_pair_universe : M St (option FileHandle) :=
  let fname := "pair-universe.parquet" in
  cached ← read (get_cached_item fname);
  match cached with
  | Some _ => mret cached
  | None =>
      let path := get_cached_file_path fname in
      save_response path "pair-universe" None;;
      read (get_cached_item fname)
  end.

Definition fetch_exchange_universe : M St (option FileHandle) :=
  let fname := "exchange-universe.json" in
  cached ← read (get_cached_item fname);
  match cached with
  | Some _ => mret cached
  | None =>
      let path := get_cached_file_path fname in
      save_response path "exchange-universe" None;;
      read (get_cached_item fname)
  end.

(** [bucket] is the [value] of the [TimeBucket] member. *)
Definition fetch_candles_all_time (bucket : string)
    : M St (option FileHandle) :=
  let fname := "candles-" +:+ bucket +:+ ".parquet" in
  cached ← read (get_cached_item fname);
  match cached with
  | Some _ => mret cached
  | None =>
      let path := get_cached_file_path fname in
      save_response path "candles-all" (Some {[ "bucket" := bucket ]});;
      read (get_cached_item path)
  end.

Definition fetch_liquidity_all_time (bucket : string)
    : M St (option FileHandle) :=
  let fname := "liquidity-samples-" +:+ bucket +:+ ".parquet" in
  cached ← read (get_cached_item fname);
  match cached with
  | Some _ => mret cached
  | None =>
      let path := get_cached_file_path fname in
      save_response path "liquidity-all" (Some {[ "bucket" := bucket ]});;
      read (get_cached_item path)
  end.

(** A download function is all-or-nothing when a call that raises leaves
    whatever was at its destination as it was. *)
Definition all_or_nothing (f : DownloadFunc) : Prop :=
  ∀ session fpath url_ params_ w e w',
    f session fpath url_ params_ w = (Raise e, w') →
    os_lookup w' fpath = os_lookup w fpath.

(** A store that succeeds: from [w] the cache root is ensured, the download
    function returns normally in [w2], and there the destination holds
    [content], written at [written], no older than the cache period. *)
Definition stores (fpath url_ : string) (params_ : option (gmap string string))
    (w w2 : World) (content : string) (written : Z) : Prop :=
  ∃ w1,
    makedirs get_abs_cache_path w = (Ok (), w1)
    ∧ download_func self (requests self) fpath url_ params_ w1 = (Ok (), w2)
    ∧ os_lookup w2 fpath = Some (File content written)
    ∧ clock w2 - written ≤ cache_period self.

Definition ping (w : World) : Result Json :=
  get_json_response "ping" None w.

Definition message_of_the_day (w : World) : Result Json :=
  get_json_response "message-of-the-day" None w.

Definition register (first_name last_name email : string) (w : World)
    : Result Json :=
  post_json_response "register"
    (Some (<["first_name" := first_name]>
             (<["last_name" := last_name]> {[ "email" := email ]}))) w.

End Methods.

End Cache.

(** ** The default pipeline as the specification words it

    Eleven steps in a fixed order, each keeping the rows that satisfy its
    predicate.  An optional step is present when it is requested, that is
    when its argument is given and true in Python's sense.  Each step
    narrows the result of the one before and reports the size of its
    output. *)

Module DefaultPipeline.
Import TokenFilter.

(** A step: the text it reports under, and the rows it keeps. *)
Definition Step : Type := string * (DEXPair → bool).

(** chain identifier equals target *)
Definition by_chain (chain : option ChainId) : option Step :=
  c ← chain; guard (chain_bool c = true);;
  Some ("Pairs on chain " +:+ chain_slug c,
        λ r, bool_decide (chain_id r = chain_value c)).

(** fee at most the configured maximum *)
Definition by_fee_at_most (max_fee : option Z) : option Step :=
  bps ← max_fee; guard (bps ≠ 0);;
  Some ("Pairs having a good fee", λ r, bool_decide (fee r ≤ bps)).

(** pair identifier appears in the candle data *)
Definition by_candle_presence (ids : option CandleIds) : option Step :=
  match ids with
  | Some (IdsColl c) =>
      guard (items c ≠ []);;
      Some ("Pairs with candle data", λ r, isin (pair_id r) (items c))
  | _ => None
  end.

(** exchange is one of the given exchange objects *)
Definition by_exchange_objects (exchanges : option (PyColl Exchange))
    : option Step :=
  es ← exchanges; guard (items es ≠ []);;
  Some ("Pairs matching exchange",
        λ r, isin (exchange_id r) (map exchange_pk (items es))).

(** exchange identifier is in the allowed set *)
Definition by_exchange_ids (exchange_ids : option (PyColl Z)) : option Step :=
  ids ← exchange_ids; guard (items ids ≠ []);;
  Some ("Pairs matching exchange", λ r, isin (exchange_id r) (items ids)).

(** not a stablecoin-stablecoin pair *)
Definition non_stablecoin_only `{Environment} : Step :=
  ("Pairs that are not stable-stable",
   λ r, negb (isin (token0_symbol r) ALL_STABLECOIN_LIKE
              && isin (token1_symbol r) ALL_STABLECOIN_LIKE)).

(** neither leg's symbol has a derivative prefix *)
Definition without_derivatives : Step :=
  ("Pairs that are not derivative tokens",
   λ r, negb (is_derivative (token0_symbol r) || is_derivative (token1_symbol r))).

(** neither leg's symbol is a rebasing token *)
Definition without_rebases `{Environment} : Step :=
  ("Pairs that are not rebase tokens",
   λ r, negb (is_rebase (token0_symbol r) || is_rebase (token1_symbol r))).

(** quote token symbol is in the allow-set *)
Definition by_quote_allow_set (good : PyColl string) : Step :=
  ("Pairs with good quote token",
   λ r, isin (quote_token_symbol r) (items good)).

(** none of the symbols or addresses is in the deny-set, symbols and
    deny-set compared in lower case *)
Definition by_blacklist `{Environment} (blacklist : option (PyColl string))
    : option Step :=
  bl ← blacklist; guard (items bl ≠ []);;
  let deny := map str_lower (items bl) in
  Some ("Pairs without blacklisted base token",
        λ r, negb (isin (token0_address r) deny
                   || isin (str_lower (token0_symbol r)) deny
                   || isin (token1_address r) deny
                   || isin (str_lower (token1_symbol r)) deny)).

(** neither leg's symbol has a character above code point 127 *)
Definition ascii_only : Step :=
  ("Pairs with clean ASCII token name",
   λ r, negb (any_ord_above_127 (token0_symbol r)
              || any_ord_above_127 (token1_symbol r))).

(** The canonical order; [None] marks an optional step that was not
    requested. *)
Definition default_stages `{Environment}
    (max_fee : option Z) (blacklist : option (PyColl string))
    (good : PyColl string) (exchanges : option (PyColl Exchange))
    (exchange_ids : option (PyColl Z)) (candle_ids : option CandleIds)
    (chain : option ChainId) : list (option Step) :=
  [ by_chain chain;
    by_fee_at_most max_fee;
    by_candle_presence candle_ids;
    by_exchange_objects exchanges;
    by_exchange_ids exchange_ids;
    Some non_stablecoin_only;
    Some without_derivatives;
    Some without_rebases;
    Some (by_quote_allow_set good);
    by_blacklist blacklist;
    Some ascii_only ].

(** The steps that are applied. *)
Definition default_steps `{Environment}
    (max_fee : option Z) (blacklist : option (PyColl string))
    (good : PyColl string) (exchanges : option (PyColl Exchange))
    (exchange_ids : option (PyColl Z)) (candle_ids : option CandleIds)
    (chain : option ChainId) : list Step :=
  omap id (default_stages max_fee blacklist good exchanges exchange_ids
             candle_ids chain).

(** Running steps: the final table, and the (text, row count) reports in
    the order they are made. *)
Fixpoint run_steps (steps : list Step) (df : DataFrame)
    : DataFrame * list (string * nat) :=
  match steps with
  | [] => (df, [])
  | (text, keep) :: rest =>
      let df' := List.filter keep df in
      let '(out, reports) := run_steps rest df' in
      (out, (text, length df') :: reports)
  end.

(** Feeding reports to a print callback, first report first. *)
Definition print_all {S} (verbose_print : string → nat → S → S)
    (reports : list (string * nat)) (s : S) : S :=
  fold_left (λ s r, verbose_print r.1 r.2 s) reports s.

(** One optional step: its effect on the table and on the output state. *)
Definition apply_opt (o : option Step) (df : DataFrame) : DataFrame :=
  match o with Some (_, keep) => List.filter keep df | None => df end.

Definition report_opt {S} (verbose_print : string → nat → S → S)
    (o : option Step) (df : DataFrame) (s : S) : S :=
  match o with
  | Some (text, keep) => verbose_print text (length (List.filter keep df)) s
  | None => s
  end.

Definition stage {S} (verbose_print : string → nat → S → S)
    (o : option Step) (df : DataFrame) : M S DataFrame :=
  match o with
  | Some (text, keep) =>
      let df' := List.filter keep df in
      modify (verbose_print text (length df'));; mret df'
  | None => mret df
  end.

Fixpoint apply_all (os : list (option Step)) (df : DataFrame) : DataFrame :=
  match os with
  | [] => df
  | o :: os' => apply_all os' (apply_opt o df)
  end.

Fixpoint report_all {S} (verbose_print : string → nat → S → S)
    (os : list (option Step)) (df : DataFrame) (s : S) : S :=
  match os with
  | [] => s
  | o :: os' =>
      report_all verbose_print os' (apply_opt o df)
        (report_opt verbose_print o df s)
  end.

(** A row passes an optional step when the step is absent or keeps it. *)
Definition passes (r : DEXPair) (o : option Step) : Prop :=
  match o with Some (_, keep) => keep r = true | None => True end.

(** Arguments the pipeline accepts: unique index labels, candle ids given
    as a collection, a deny-set given as a list or a set. *)
Definition accepted (pairs_df : DataFrame) (blacklist : option (PyColl string))
    (candle_ids : option CandleIds) : Prop :=
  NoDup (map idx pairs_df)
  ∧ (∀ s, candle_ids ≠ Some (IdsSeries s))
  ∧ (∀ bl, blacklist = Some bl → items bl ≠ [] → is_list_or_set bl = true).

(** The fee step takes its mask from the whole input table and applies it
    to the rows the chain step left.  The labels line up when the chain
    step removed nothing, or when the index labels of the input are
    unique. *)
Definition labels_line_up (pairs_df : DataFrame) (chain : option ChainId)
    : Prop :=
  apply_opt (by_chain chain) pairs_df = pairs_df ∨ NoDup (map idx pairs_df).

(** Arguments on which the pipeline runs to its end: labels that line up
    when a fee limit is requested, candle ids given as a collection, a
    non-empty deny-set given as a list or a set. *)
Definition runs_to_end (pairs_df : DataFrame) (max_fee : option Z)
    (blacklist : option (PyColl string)) (candle_ids : option CandleIds)
    (chain : option ChainId) : Prop :=
  (∀ bps, max_fee = Some bps → bps ≠ 0 → labels_line_up pairs_df chain)
  ∧ (∀ s, candle_ids ≠ Some (IdsSeries s))
  ∧ (∀ bl, blacklist = Some bl → items bl ≠ [] → is_list_or_set bl = true).

End DefaultPipeline.

(** ** Sample data *)

Module Samples.
Import TokenFilter.

(** Case mapping restricted to the ASCII letters. *)
Definition ascii_upper_char (c : Ascii.ascii) : Ascii.ascii :=
  let n := Ascii.nat_of_ascii c in
  if ((97 <=? n) && (n <=? 122))%nat then Ascii.ascii_of_nat (n - 32) else c.

Definition ascii_lower_char (c : Ascii.ascii) : Ascii.ascii :=
  let n := Ascii.nat_of_ascii c in
  if ((65 <=? n) && (n <=? 90))%nat then Ascii.ascii_of_nat (n + 32) else c.

Fixpoint map_chars (f : Ascii.ascii → Ascii.ascii) (s : string) : string :=
  match s with
  | EmptyString => EmptyString
  | String c s' => String (f c) (map_chars f s')
  end.

#[export] Instance sample_environment : Environment := {|
  str_upper := map_chars ascii_upper_char;
  str_lower := map_chars ascii_lower_char;
  ALL_STABLECOIN_LIKE := ["USDC"; "USDT"; "DAI"; "BUSD"];
  Json := string;
  json_loads := Some;
  cwd := ["srv"; "app"];
  HOME := "/home/trader";
|}.

(** A row of a table on chain 1 and exchange 1, labelled [i]; addresses are
    the lower-cased symbols behind [0x]. *)
Definition pair (i : Z) (base quote : string) (fee_bps : Z) : DEXPair := {|
  idx := i; pair_id := 100 + i; chain_id := 1; exchange_id := 1;
  fee := fee_bps;
  token0_symbol := base; token1_symbol := quote;
  token0_address := "0x" +:+ map_chars ascii_lower_char base;
  token1_address := "0x" +:+ map_chars ascii_lower_char quote;
  quote_token_symbol := quote;
|}.

Definition sample_pairs : DataFrame :=
  [pair 0 "WETH" "USDC" 5; pair 1 "SHIB" "USDC" 100; pair 2 "USDC" "USDT" 1].

(** A print callback that keeps what it is given. *)
Definition record_print (x : string) (y : nat) (out : list (string * nat))
    : list (string * nat) :=
  (out ++ [(x, y)])%list.

Definition ethereum : ChainId :=
  {| chain_value := 1; chain_slug := "ethereum"; chain_bool := true |}.

Import OsPath Cache.

(** A download function that fetches the whole body and then writes it to
    the destination; a failed request leaves the destination as it was. *)
Definition complete_download : DownloadFunc :=
  λ session fpath url_ params_ w,
    match session_request session "GET" url_ params_ w with
    | Raise e => (Raise e, w)
    | Ok r =>
        (Ok (), with_fs w (<[abspath fpath := File (text r) (clock w)]> (fs w)))
    end.

(** A download function that streams the body to the destination and loses
    the connection after the first four bytes. *)
Definition interrupted_download : DownloadFunc :=
  λ session fpath url_ params_ w,
    match session_request session "GET" url_ params_ w with
    | Raise e => (Raise e, w)
    | Ok r =>
        (Raise ConnectionError,
         with_fs w (<[abspath fpath := File (String.substring 0 4 (text r))
                                            (clock w)]> (fs w)))
    end.

(** A server that answers every request with the same response. *)
Definition answering (status : Z) (body : string) : Request → option Response :=
  λ _, Some {| status_code := status; text := body |}.

Definition sample_transport (f : DownloadFunc) : CachedHTTPTransport :=
  __init__ f None DEFAULT_CACHE_PERIOD (Some "/var/cache/ts") None.

(** The cache root exists and is empty; it is noon of some day. *)
Definition empty_cache : World :=
  {| fs := {[ "/var" := Dir 0; "/var/cache" := Dir 0; "/var/cache/ts" := Dir 0 ]};
     clock := 43200000000;
     http := answering 200 "PAR1-pair-universe-PAR1" |}.

(** The pair universe was cached at time 0 and the clock reads [now]. *)
Definition cached_at_0 (now : Z) : World :=
  {| fs := {[ "/var" := Dir 0; "/var/cache" := Dir 0; "/var/cache/ts" := Dir 0;
              "/var/cache/ts/pair-universe.parquet" := File "PAR1-old-PAR1" 0 ]};
     clock := now;
     http := answering 200 "PAR1-pair-universe-PAR1" |}.

Definition fresh (w : World) : St := {| world := w; downloads := [] |}.

Definition t_complete := sample_transport complete_download.
Definition t_interrupted := sample_transport interrupted_download.
Definition pair_universe_path := "/var/cache/ts/pair-universe.parquet".

(** A world without network, the pair universe cached at time 0. *)
Definition offline (now : Z) : World :=
  {| fs := fs (cached_at_0 now); clock := now; http := λ _, None |}.

(** The world after the hourly candles were downloaded into the empty
    cache. *)
Definition candles_1h_path := "/var/cache/ts/candles-1h.parquet".

Definition after_candles_1h : World :=
  with_fs empty_cache
    (<[candles_1h_path := File "PAR1-pair-universe-PAR1" (clock empty_cache)]>
       (fs empty_cache)).

End Samples.

(** ** token_filter.py: the filters outside the default pipeline *)

Module TokenFilterRest.
Import TokenFilter.

(** The argument of [filter_for_exchange]: one slug, a tuple, set or list of
    slugs, or an object of any other type. *)
Inductive SlugFilter :=
| OneSlug (slug : string)
| Slugs (slugs : PyColl string)
| OtherObject.

(** The [base_token_symbol] and [exchange_slug] columns are not fields of
    [DEXPair]; a filter that reads one takes it as a function of the row. *)

Definition filter_for_base_tokens `{Environment}
    (base_token_symbol : DEXPair → string)
    (pairs : DataFrame) (base_token_addresses : PyColl string)
    : Result DataFrame :=
  if negb (is_list_or_set base_token_addresses)
  then Raise (AssertionError "Received")
  else if existsb (λ addr, negb (bool_decide (addr = str_lower addr)))
                  (items base_token_addresses)
  then Raise (AssertionError "Address was not lowercased")
  else
    Ok (loc pairs (λ r,
      (isin (token0_address r) (items base_token_addresses)
       && bool_decide (token0_symbol r = base_token_symbol r))
      || (isin (token1_address r) (items base_token_addresses)
          && bool_decide (token1_symbol r = base_token_symbol r)))).

Definition filter_for_quote_tokens `{Environment}
    (pairs : DataFrame) (quote_token_addresses : PyColl string)
    : Result DataFrame :=
  if negb (is_list_or_set quote_token_addresses)
  then Raise (AssertionError "Received")
  else if existsb (λ addr, negb (bool_decide (addr = str_lower addr)))
                  (items quote_token_addresses)
  then Raise (AssertionError "Address was not lowercased")
  else
    Ok (loc pairs (λ r,
      (isin (token0_address r) (items quote_token_addresses)
       && bool_decide (token0_symbol r = quote_token_symbol r))
      || (isin (token1_address r) (items quote_token_addresses)
          && bool_decide (token1_symbol r = quote_token_symbol r)))).

(** What the two token filters assert of their addresses: a list or a set,
    every address equal to its lower-cased form. *)
Definition addresses_accepted `{Environment} (addresses : PyColl string) : Prop :=
  is_list_or_set addresses = true
  ∧ Forall (λ addr, addr = str_lower addr) (items addresses).

Definition filter_for_exchange (exchange_slug_column : DEXPair → string)
    (pairs : DataFrame) (exchange_slug : SlugFilter) : Result DataFrame :=
  match exchange_slug with
  | OneSlug slug =>
      Ok (loc pairs (λ r, bool_decide (exchange_slug_column r = slug)))
  | Slugs slugs =>
      Ok (loc pairs (λ r, isin (exchange_slug_column r) (items slugs)))
  | OtherObject => Raise (AssertionError "Unsupported exchange slug filter")
  end.

End TokenFilterRest.

(** ** list.sort *)

Module PySort.

(** [l.sort(key=key)] keeps elements with equal keys in their order: the
    stable sort, here by insertion from the right. *)
Fixpoint insert_by {A} (key : A → Z) (x : A) (l : list A) : list A :=
  match l with
  | [] => [x]
  | y :: l' =>
      if bool_decide (key x ≤ key y) then x :: y :: l'
      else y :: insert_by key x l'
  end.

Fixpoint sort_by {A} (key : A → Z) (l : list A) : list A :=
  match l with
  | [] => []
  | x :: l' => insert_by key x (sort_by key l')
  end.

End PySort.

(** ** capitalgram/candle.py *)

Module Candles.

Record Candle := {
  chain_id : TokenFilter.ChainId;
  address : string;
  timestamp : Z;
  exchange_rate : float;
  open : float;
  close : float;
  high : float;
  low : float;
  buys : Z;
  sells : Z;
  buy_volume : float;
  sell_volume : float;
  avg : float;
  start_block : Z;
  end_block : Z;
}.

(** [ChainAddressTuple(self.chain_id.value, self.address)] *)
Definition caip (self : Candle) : Z * string :=
  (TokenFilter.chain_value (chain_id self), address self).

Definition trades (self : Candle) : Z := buys self + sells self.

Definition volume (self : Candle) : float :=
  (buy_volume self + sell_volume self)%float.

Record CandleResult := { candles : list Candle }.

(** The sort is in place: the result is the object after the call. *)
Definition sort_by_timestamp (self : CandleResult) : CandleResult :=
  {| candles := PySort.sort_by timestamp (candles self) |}.

(** What [typing.get_type_hints] resolves a field annotation to. *)
Inductive FieldType :=
| TInt
| TFloat
| TStr
| TOther.

(** The column types [to_dataframe] chooses. *)
Inductive DType :=
| datetime64_s
| dt_int
| dt_float
| dt_string.

(** One round of the loop of [to_dataframe]: the dtype of the column for a
    field, or [None] where the code raises [RuntimeError]. *)
Definition column_dtype (name : string) (fdesc : FieldType) : option DType :=
  if bool_decide (name = "timestamp") then Some datetime64_s
  else if bool_decide (name = "chain_id") then Some dt_int
  else match fdesc with
       | TInt => Some dt_int
       | TFloat => Some dt_float
       | TStr => Some dt_string
       | TOther => None
       end.

(** [to_dataframe] over the resolved fields of the class, in declaration
    order: the columns of the empty frame, or [None] for [RuntimeError]. *)
Fixpoint to_dataframe (resolved_field_types : list (string * FieldType))
    : option (list (string * DType)) :=
  match resolved_field_types with
  | [] => Some []
  | (name, fdesc) :: rest =>
      pf ← column_dtype name fdesc;
      df ← to_dataframe rest;
      Some ((name, pf) :: df)
  end.

End Candles.

(** ** tests/test_ape_in_latest.py *)

Module ApeInLatest.

(** [pair_universe.get_all_pair_ids()] is the list [all_pair_ids];
    [liquidity_universe.get_liquidity_by_pair(pair_id)["open"]] is the
    series [open_liquidity pair_id], from timestamps to values, a missing
    timestamp being the [KeyError] the code catches.  [reached_state] is
    updated in place: the second component is the dictionary after the
    call. *)
Definition update_pair_liquidity_threshold (now_ : Z) (threshold : float)
    (reached_state : gmap Z Z) (all_pair_ids : list Z)
    (open_liquidity : Z → gmap Z float) : gmap Z float * gmap Z Z :=
  let ts := now_ in
  fold_left
    (λ (acc : gmap Z float * gmap Z Z) pair_id,
       let '(new_entries, reached_state) := acc in
       if bool_decide (reached_state !! pair_id = None) then
         let liquidity_today :=
           match open_liquidity pair_id !! ts with
           | Some v => v
           | None => 0%float
           end in
         if (threshold <=? liquidity_today)%float
         then (<[pair_id := liquidity_today]> new_entries,
               <[pair_id := now_]> reached_state)
         else acc
       else acc)
    all_pair_ids (∅, reached_state).

(** The open liquidity of a pair at [now_], 0 when the series has no sample
    there, and whether it reaches the threshold. *)
Definition liquidity_today (now_ : Z) (open_liquidity : Z → gmap Z float)
    (pair_id : Z) : float :=
  match open_liquidity pair_id !! now_ with
  | Some v => v
  | None => 0%float
  end.

Definition reaches (now_ : Z) (threshold : float)
    (open_liquidity : Z → gmap Z float) (pair_id : Z) : bool :=
  (threshold <=? liquidity_today now_ open_liquidity pair_id)%float.

End ApeInLatest.

(** ** More sample data *)

Module MoreSamples.
Import OsPath Cache Samples.

(** A transport whose cache period is minus one microsecond. *)
Definition t_negative : CachedHTTPTransport :=
  __init__ complete_download None (-1) (Some "/var/cache/ts") None.

(** The world after the pair universe was downloaded into the empty cache. *)
Definition after_pair_universe : World :=
  with_fs empty_cache
    (<[pair_universe_path := File "PAR1-pair-universe-PAR1" (clock empty_cache)]>
       (fs empty_cache)).

(** Three days and a microsecond after the pair universe was cached. *)
Definition stale : Z := DEFAULT_CACHE_PERIOD + 1.

(** A download function that writes the whole body to the destination and
    returns one microsecond after the write. *)
Definition timed_download : DownloadFunc :=
  λ session fpath url_ params_ w,
    match session_request session "GET" url_ params_ w with
    | Raise e => (Raise e, w)
    | Ok r =>
        (Ok (),
         {| fs := <[abspath fpath := File (text r) (clock w)]> (fs w);
            clock := clock w + 1;
            http := http w |})
    end.

(** A transport that is to reuse no download: the cache period is zero. *)
Definition t_no_reuse : CachedHTTPTransport :=
  __init__ timed_download None 0 (Some "/var/cache/ts") None.

(** The world after [timed_download] stored the hourly candles in the empty
    cache. *)
Definition after_timed_candles_1h : World :=
  {| fs := <[candles_1h_path := File "PAR1-pair-universe-PAR1"
                                     (clock empty_cache)]> (fs empty_cache);
     clock := clock empty_cache + 1;
     http := http empty_cache |}.

(** Two tables put together without relabelling: both start at label 0. *)
Definition concatenated_pairs : TokenFilter.DataFrame :=
  [pair 0 "WETH" "USDC" 5; pair 1 "SHIB" "USDC" 100; pair 0 "UNI" "USDC" 30].

End MoreSamples.

(** * Properties *)

Module FilterFacts.
Import TokenFilter DefaultPipeline.

Lemma take_rows_map (df : DataFrame) (p : DEXPair → bool) :
  take_rows df (map p df) = List.filter p df.
Proof.
  induction df as [|r df IH]; simpl; [done|].
  rewrite IH. by destruct (p r).
Qed.

Lemma mask_of_index df p : map fst (mask_of df p) = map idx df.
Proof. unfold mask_of. rewrite map_map. done. Qed.

Lemma mask_of_flags df p : map snd (mask_of df p) = map p df.
Proof. unfold mask_of. rewrite map_map. done. Qed.

(** A mask computed from the frame it indexes selects by predicate. *)
Lemma loc_bool_self df p : loc_bool df (mask_of df p) = Ok (loc df p).
Proof.
  unfold loc_bool. rewrite mask_of_index, decide_True by done.
  by rewrite mask_of_flags, take_rows_map.
Qed.

Lemma idx_inj (l : DataFrame) x y :
  NoDup (map idx l) → x ∈ l → y ∈ l → idx x = idx y → x = y.
Proof.
  induction l as [|a l IH]; intros Hnd Hx Hy Heq; [by inversion Hx|].
  simpl in Hnd. apply NoDup_cons in Hnd as [Hna Hnd].
  apply elem_of_cons in Hx as [->|Hx]; apply elem_of_cons in Hy as [->|Hy];
    try done.
  - exfalso. apply Hna. rewrite Heq. by apply list_elem_of_fmap_2.
  - exfalso. apply Hna. rewrite <- Heq. by apply list_elem_of_fmap_2.
  - by apply IH.
Qed.

Lemma values_at_absent (l : DataFrame) p label :
  label ∉ map idx l → values_at (mask_of l p) label = [].
Proof.
  unfold values_at, mask_of. induction l as [|a l IH]; intros Hn; [done|].
  simpl in *. apply not_elem_of_cons in Hn as [Hne Hn].
  rewrite bool_decide_false by done. by apply IH.
Qed.

Lemma values_at_unique (l : DataFrame) p r :
  NoDup (map idx l) → r ∈ l → values_at (mask_of l p) (idx r) = [p r].
Proof.
  induction l as [|a l IH]; intros Hnd Hr; [by inversion Hr|].
  simpl in Hnd. apply NoDup_cons in Hnd as [Hna Hnd].
  unfold values_at, mask_of in *. simpl.
  apply elem_of_cons in Hr as [->|Hr].
  - rewrite bool_decide_true by done. simpl. f_equal.
    by apply (values_at_absent l p).
  - rewrite bool_decide_false.
    + by apply IH.
    + intros Heq. apply Hna. rewrite Heq. by apply list_elem_of_fmap_2.
Qed.

Lemma found_flags (pairs df : DataFrame) p :
  NoDup (map idx pairs) → (∀ r, r ∈ df → r ∈ pairs) →
  map (λ r, values_at (mask_of pairs p) (idx r)) df = map (λ r, [p r]) df.
Proof.
  intros Hnd Hsub. apply map_ext_in. intros r Hr.
  apply values_at_unique; [done|]. apply Hsub. by apply list_elem_of_In.
Qed.

Lemma concat_singletons {A B} (f : A → B) (l : list A) :
  concat (map (λ x, [f x]) l) = map f l.
Proof. induction l; simpl; congruence. Qed.

Lemma no_empty_singletons {A B} (f : A → B) (l : list A) :
  existsb (λ vs : list B, match vs with [] => true | _ => false end)
          (map (λ x, [f x]) l) = false.
Proof. induction l; simpl; done. Qed.

Lemma same_index_same_rows (pairs df : DataFrame) :
  NoDup (map idx pairs) → (∀ r, r ∈ df → r ∈ pairs) →
  map idx pairs = map idx df → df = pairs.
Proof.
  intros Hnd Hsub Heq. apply list_eq. intros i.
  assert (Hi : map idx df !! i = map idx pairs !! i) by by rewrite Heq.
  rewrite !list_lookup_fmap in Hi.
  destruct (df !! i) as [x|] eqn:Hx, (pairs !! i) as [y|] eqn:Hy;
    simpl in Hi; try done.
  f_equal. apply (idx_inj pairs); [done| |by eapply list_elem_of_lookup_2|congruence].
  apply Hsub. by eapply list_elem_of_lookup_2.
Qed.

(** A mask computed from the whole table, applied to some of its rows,
    selects among those rows by predicate: labels are unique. *)
Lemma loc_bool_aligned (pairs df : DataFrame) p :
  NoDup (map idx pairs) → (∀ r, r ∈ df → r ∈ pairs) →
  loc_bool df (mask_of pairs p) = Ok (List.filter p df).
Proof.
  intros Hnd Hsub. unfold loc_bool. rewrite mask_of_index.
  destruct (decide (map idx pairs = map idx df)) as [Heq|Hne].
  - rewrite (same_index_same_rows pairs df) by done.
    by rewrite mask_of_flags, take_rows_map.
  - rewrite found_flags, no_empty_singletons, concat_singletons by done.
    rewrite length_map, decide_True by done. by rewrite take_rows_map.
Qed.

End FilterFacts.

Module PipelineFacts.
Import TokenFilter DefaultPipeline FilterFacts.

Section Stages.
Context `{Environment} {S : Type} (verbose_print : string → nat → S → S).

Lemma bind_modify {A} (f : S → S) (k : unit → M S A) (s : S) :
  (modify f ≫= k) s = k () (f s).
Proof. done. Qed.

Lemma bind_stage {A} (o : option Step) df (k : DataFrame → M S A) (s : S) :
  (stage verbose_print o df ≫= k) s
  = k (apply_opt o df) (report_opt verbose_print o df s).
Proof. by destruct o as [[text keep]|]. Qed.

Lemma coll_bool_items {A} (c : PyColl A) :
  coll_bool c = bool_decide (items c ≠ []).
Proof. unfold coll_bool. by destruct (items c). Qed.

(** The optional blocks of [filter_pairs_default], each as a stage. *)

Lemma chain_block pairs_df chain :
  match chain with
  | Some c =>
      if chain_bool c then
        let df := filter_for_chain pairs_df c in
        modify (verbose_print ("Pairs on chain " +:+ chain_slug c) (length df));;
        mret df
      else mret pairs_df
  | None => mret pairs_df
  end = stage verbose_print (by_chain chain) pairs_df.
Proof. destruct chain as [[v slug []]|]; done. Qed.

Lemma fee_block pairs_df df max_fee :
  NoDup (map idx pairs_df) → (∀ r, r ∈ df → r ∈ pairs_df) →
  match max_fee with
  | Some bps =>
      if bool_decide (bps ≠ 0) then
        df' ← lift (loc_bool df (mask_of pairs_df (λ r, bool_decide (fee r ≤ bps))));
        modify (verbose_print "Pairs having a good fee" (length df'));;
        mret df'
      else mret df
  | None => mret df
  end = stage verbose_print (by_fee_at_most max_fee) df.
Proof.
  intros Hnd Hsub. destruct max_fee as [bps|]; [|done]. simpl.
  rewrite loc_bool_aligned by done.
  case_bool_decide; case_guard; done.
Qed.

Lemma candle_block df ids :
  (∀ s, ids ≠ Some (IdsSeries s)) →
  match ids with
  | Some (IdsSeries _) => raise ValueError
  | Some (IdsColl c) =>
      if coll_bool c then
        let df' := loc df (λ r, isin (pair_id r) (items c)) in
        modify (verbose_print "Pairs with candle data" (length df'));;
        mret df'
      else mret df
  | None => mret df
  end = stage verbose_print (by_candle_presence ids) df.
Proof.
  intros Hser. destruct ids as [[c|s]|]; [|by destruct (Hser s)|done].
  simpl. rewrite coll_bool_items. case_bool_decide; case_guard; done.
Qed.

Lemma exchanges_block df exchanges :
  match exchanges with
  | Some es =>
      if coll_bool es then
        let df' := filter_for_exchanges df es in
        modify (verbose_print "Pairs matching exchange" (length df'));;
        mret df'
      else mret df
  | None => mret df
  end = stage verbose_print (by_exchange_objects exchanges) df.
Proof.
  destruct exchanges as [es|]; [|done].
  simpl. rewrite coll_bool_items. case_bool_decide; case_guard; done.
Qed.

Lemma exchange_ids_block df exchange_ids :
  match exchange_ids with
  | Some ids =>
      if coll_bool ids then
        let df' := filter_for_exchange_ids df ids in
        modify (verbose_print "Pairs matching exchange" (length df'));;
        mret df'
      else mret df
  | None => mret df
  end = stage verbose_print (by_exchange_ids exchange_ids) df.
Proof.
  destruct exchange_ids as [ids|]; [|done].
  simpl. rewrite coll_bool_items. case_bool_decide; case_guard; done.
Qed.

Lemma blacklist_block df blacklist :
  (∀ bl, blacklist = Some bl → items bl ≠ [] → is_list_or_set bl = true) →
  match blacklist with
  | Some bl =>
      if coll_bool bl then
        df' ← lift (filter_for_blacklisted_tokens df bl);
        modify (verbose_print "Pairs without blacklisted base token" (length df'));;
        mret df'
      else mret df
  | None => mret df
  end = stage verbose_print (by_blacklist blacklist) df.
Proof.
  intros Hkind. destruct blacklist as [bl|]; [|done].
  simpl. rewrite coll_bool_items. case_bool_decide; case_guard; try done.
  unfold filter_for_blacklisted_tokens. by rewrite Hkind.
Qed.

(** The unconditional filters, each as the step of the same name. *)

Lemma stablecoins_step df :
  filter_for_stablecoins df only_volatile_pairs
  = apply_opt (Some non_stablecoin_only) df.
Proof. done. Qed.

Lemma derivatives_step df :
  filter_for_derivatives df false = apply_opt (Some without_derivatives) df.
Proof.
  apply List.filter_ext. intros r. by rewrite negb_orb.
Qed.

Lemma rebases_step df :
  filter_for_rebases df false = apply_opt (Some without_rebases) df.
Proof.
  apply List.filter_ext. intros r. by rewrite negb_orb.
Qed.

Lemma quote_step df good :
  loc df (λ r, isin (quote_token_symbol r) (items good))
  = apply_opt (Some (by_quote_allow_set good)) df.
Proof. done. Qed.

Lemma nonascii_step df :
  filter_for_nonascii_tokens df = apply_opt (Some ascii_only) df.
Proof. done. Qed.

Lemma report_Some text keep df (s : S) :
  verbose_print text (length (apply_opt (Some (text, keep)) df)) s
  = report_opt verbose_print (Some (text, keep)) df s.
Proof. done. Qed.

Lemma apply_opt_subset (o : option Step) df r :
  r ∈ apply_opt o df → r ∈ df.
Proof.
  destruct o as [[text keep]|]; simpl; [|done].
  rewrite !list_elem_of_In, filter_In. tauto.
Qed.

(** The whole function, step after step. *)
Lemma filter_pairs_default_stages
    pairs_df max_fee blacklist good exchanges exchange_ids candle_ids chain
    (s : S) :
  accepted pairs_df blacklist candle_ids →
  filter_pairs_default pairs_df verbose_print max_fee blacklist good
    exchanges exchange_ids candle_ids chain s
  = let stages := default_stages max_fee blacklist good exchanges
                    exchange_ids candle_ids chain in
    (Ok (apply_all stages pairs_df),
     report_all verbose_print stages pairs_df
       (verbose_print "Pairs in the input dataset" (length pairs_df) s)).
Proof.
  intros (Hnd & Hser & Hbl).
  unfold filter_pairs_default, default_stages. cbv zeta.
  rewrite bind_modify, chain_block, bind_stage.
  rewrite (fee_block pairs_df) by eauto using apply_opt_subset.
  rewrite bind_stage, candle_block, bind_stage by done.
  rewrite exchanges_block, bind_stage, exchange_ids_block, bind_stage.
  rewrite stablecoins_step, bind_modify.
  rewrite derivatives_step, bind_modify.
  rewrite rebases_step, bind_modify.
  rewrite quote_step, bind_modify.
  rewrite blacklist_block, bind_stage by done.
  rewrite nonascii_step, bind_modify.
  unfold non_stablecoin_only, without_derivatives, without_rebases,
    by_quote_allow_set, ascii_only.
  rewrite !report_Some. reflexivity.
Qed.

Lemma fee_block_lined_up pairs_df chain max_fee :
  (∀ bps, max_fee = Some bps → bps ≠ 0 → labels_line_up pairs_df chain) →
  match max_fee with
  | Some bps =>
      if bool_decide (bps ≠ 0) then
        df' ← lift (loc_bool (apply_opt (by_chain chain) pairs_df)
                      (mask_of pairs_df (λ r, bool_decide (fee r ≤ bps))));
        modify (verbose_print "Pairs having a good fee" (length df'));;
        mret df'
      else mret (apply_opt (by_chain chain) pairs_df)
  | None => mret (apply_opt (by_chain chain) pairs_df)
  end = stage verbose_print (by_fee_at_most max_fee)
          (apply_opt (by_chain chain) pairs_df).
Proof.
  intros Hline. destruct max_fee as [bps|]; [|done].
  destruct (decide (bps = 0)) as [->|Hbps]; [done|].
  destruct (Hline bps eq_refl Hbps) as [Hall|Hnd].
  - rewrite Hall. simpl. rewrite loc_bool_self.
    case_bool_decide; case_guard; done.
  - by apply (fee_block pairs_df _ (Some bps)); [|eauto using apply_opt_subset].
Qed.

(** The whole function, step after step, whenever it runs to its end. *)
Lemma filter_pairs_default_runs
    pairs_df max_fee blacklist good exchanges exchange_ids candle_ids chain
    (s : S) :
  runs_to_end pairs_df max_fee blacklist candle_ids chain →
  filter_pairs_default pairs_df verbose_print max_fee blacklist good
    exchanges exchange_ids candle_ids chain s
  = let stages := default_stages max_fee blacklist good exchanges
                    exchange_ids candle_ids chain in
    (Ok (apply_all stages pairs_df),
     report_all verbose_print stages pairs_df
       (verbose_print "Pairs in the input dataset" (length pairs_df) s)).
Proof.
  intros (Hline & Hser & Hbl).
  unfold filter_pairs_default, default_stages. cbv zeta.
  rewrite bind_modify, chain_block, bind_stage.
  rewrite fee_block_lined_up by done.
  rewrite bind_stage, candle_block, bind_stage by done.
  rewrite exchanges_block, bind_stage, exchange_ids_block, bind_stage.
  rewrite stablecoins_step, bind_modify.
  rewrite derivatives_step, bind_modify.
  rewrite rebases_step, bind_modify.
  rewrite quote_step, bind_modify.
  rewrite blacklist_block, bind_stage by done.
  rewrite nonascii_step, bind_modify.
  unfold non_stablecoin_only, without_derivatives, without_rebases,
    by_quote_allow_set, ascii_only.
  rewrite !report_Some. reflexivity.
Qed.

Lemma accepted_runs_to_end pairs_df max_fee blacklist candle_ids chain :
  accepted pairs_df blacklist candle_ids →
  runs_to_end pairs_df max_fee blacklist candle_ids chain.
Proof. intros (Hnd & Hser & Hbl). split; [intros; by right|done]. Qed.

Lemma run_steps_apply_all (os : list (option Step)) df :
  (run_steps (omap id os) df).1 = apply_all os df.
Proof.
  revert df. induction os as [|[[text keep]|] os IH]; intros df; [done| |].
  - change (omap id (Some (text, keep) :: os)) with ((text, keep) :: omap id os).
    cbn [run_steps apply_all apply_opt]. rewrite <- IH.
    by destruct (run_steps (omap id os) (List.filter keep df)).
  - apply IH.
Qed.

Lemma run_steps_report_all (os : list (option Step)) df (s : S) :
  print_all verbose_print (run_steps (omap id os) df).2 s
  = report_all verbose_print os df s.
Proof.
  revert df s. induction os as [|[[text keep]|] os IH]; intros df s; [done| |].
  - change (omap id (Some (text, keep) :: os)) with ((text, keep) :: omap id os).
    cbn [run_steps report_all apply_opt report_opt]. rewrite <- IH.
    by destruct (run_steps (omap id os) (List.filter keep df)).
  - apply IH.
Qed.

Lemma elem_of_apply_all (os : list (option Step)) df r :
  r ∈ apply_all os df ↔ r ∈ df ∧ Forall (passes r) os.
Proof.
  revert df. induction os as [|o os IH]; intros df; simpl.
  - split; [by intros ?; split|tauto].
  - rewrite IH, Forall_cons. destruct o as [[text keep]|]; simpl.
    + rewrite !list_elem_of_In, filter_In. tauto.
    + tauto.
Qed.

(** C7. When the candle ids are no [pd.Series], a non-empty blacklist is a
    list or a set and, should a fee limit be requested, the chain step
    removes no row or the index labels are unique, [filter_pairs_default]
    returns the table obtained by running the eleven steps in the
    canonical order (chain, fee
    at most the maximum, candle presence, exchanges by object, exchanges by
    id when requested; then non-stablecoin pairs only, derivative exclusion,
    rebase exclusion, quote-token allow-set; blacklist when requested;
    non-ASCII exclusion), each step applied to the result of the previous
    one, and the print callback has received the input size followed by the
    output size of every step, in that order. *)
Theorem filter_pairs_default_canonical_order
    pairs_df max_fee blacklist good exchanges exchange_ids candle_ids chain
    (s : S) :
  runs_to_end pairs_df max_fee blacklist candle_ids chain →
  filter_pairs_default pairs_df verbose_print max_fee blacklist good
    exchanges exchange_ids candle_ids chain s
  = let run := run_steps (default_steps max_fee blacklist good exchanges
                            exchange_ids candle_ids chain) pairs_df in
    (Ok run.1,
     print_all verbose_print
       (("Pairs in the input dataset", length pairs_df) :: run.2) s).
Proof.
  intros Hrun. rewrite filter_pairs_default_runs by done.
  cbv zeta. unfold default_steps.
  rewrite run_steps_apply_all.
  change (print_all verbose_print (?r :: ?rs) s)
    with (print_all verbose_print rs (verbose_print r.1 r.2 s)).
  by rewrite run_steps_report_all.
Qed.

(** C10. A maximum fee of 0 behaves as no maximum at all: the whole run,
    table and reports, is the one without a fee limit, and on accepted
    arguments the result is exactly the input rows that pass the other ten
    steps, whatever their fee.  Likewise, when no chain is given the result
    is exactly the input rows that pass the other ten steps, whatever their
    chain. *)
Theorem zero_fee_maximum_and_absent_chain_are_skipped
    pairs_df blacklist good exchanges exchange_ids candle_ids (s : S) :
  let others :=
    [ by_candle_presence candle_ids;
      by_exchange_objects exchanges;
      by_exchange_ids exchange_ids;
      Some non_stablecoin_only;
      Some without_derivatives;
      Some without_rebases;
      Some (by_quote_allow_set good);
      by_blacklist blacklist;
      Some ascii_only ] in
  (∀ chain,
     filter_pairs_default pairs_df verbose_print (Some 0) blacklist good
       exchanges exchange_ids candle_ids chain s
     = filter_pairs_default pairs_df verbose_print None blacklist good
         exchanges exchange_ids candle_ids chain s)
  ∧ (accepted pairs_df blacklist candle_ids →
     (∀ chain, ∃ out,
        (filter_pairs_default pairs_df verbose_print (Some 0) blacklist good
           exchanges exchange_ids candle_ids chain s).1 = Ok out
        ∧ ∀ r, r ∈ out ↔
            r ∈ pairs_df ∧ Forall (passes r) (by_chain chain :: others))
     ∧ (∀ max_fee, ∃ out,
          (filter_pairs_default pairs_df verbose_print max_fee blacklist good
             exchanges exchange_ids candle_ids None s).1 = Ok out
          ∧ ∀ r, r ∈ out ↔
              r ∈ pairs_df
              ∧ Forall (passes r) (by_fee_at_most max_fee :: others))).
Proof.
  cbv zeta. split; [done|]. intros Hacc. split.
  - intros chain. rewrite filter_pairs_default_stages by done. cbv zeta.
    eexists; split; [done|]. intros r.
    rewrite elem_of_apply_all. unfold default_stages.
    rewrite !Forall_cons. simpl. tauto.
  - intros max_fee. rewrite filter_pairs_default_stages by done. cbv zeta.
    eexists; split; [done|]. intros r.
    rewrite elem_of_apply_all. unfold default_stages.
    rewrite !Forall_cons. simpl. tauto.
Qed.



End Stages.

Section Exclusions.
Context `{Environment}.

Lemma filter_filter_comm {A} (p q : A → bool) (l : list A) :
  List.filter p (List.filter q l) = List.filter q (List.filter p l).
Proof.
  induction l as [|a l IH]; simpl; [done|].
  destruct (p a) eqn:Hp, (q a) eqn:Hq; simpl; rewrite ?Hp, ?Hq, IH; done.
Qed.

(** C9. Stablecoin exclusion (only-volatile mode), derivative exclusion and
    rebase exclusion give the same table in each of their six orders. *)
Theorem exclusion_filters_commute (pairs : DataFrame) :
  let stable df := filter_for_stablecoins df only_volatile_pairs in
  let deriv df := filter_for_derivatives df false in
  let rebase df := filter_for_rebases df false in
  let canonical := rebase (deriv (stable pairs)) in
  rebase (stable (deriv pairs)) = canonical
  ∧ deriv (rebase (stable pairs)) = canonical
  ∧ deriv (stable (rebase pairs)) = canonical
  ∧ stable (rebase (deriv pairs)) = canonical
  ∧ stable (deriv (rebase pairs)) = canonical.
Proof.
  cbv zeta.
  unfold filter_for_stablecoins, filter_for_derivatives, filter_for_rebases, loc.
  set (ps := λ r : DEXPair, negb _).
  set (pd := λ r : DEXPair, negb (is_derivative _) && _).
  set (pr := λ r : DEXPair, negb (is_rebase _) && _).
  repeat split.
  - by rewrite (filter_filter_comm ps pd).
  - by rewrite (filter_filter_comm pd pr).
  - by rewrite (filter_filter_comm ps pr), (filter_filter_comm pd pr).
  - by rewrite (filter_filter_comm ps pr), (filter_filter_comm ps pd).
  - by rewrite (filter_filter_comm pd pr), (filter_filter_comm ps pr),
      (filter_filter_comm ps pd).
Qed.

End Exclusions.
End PipelineFacts.

Module PathFacts.
Import OsPath.

Lemma isabs_inv path : isabs path = true → ∃ rest, path = String "/" rest.
Proof.
  destruct path as [|c rest]; [done|]. unfold isabs. simpl.
  case_bool_decide; [subst; eauto|done].
Qed.

Lemma isabs_String rest : isabs (String "/" rest) = true.
Proof. done. Qed.

Lemma normpath_isabs path : isabs path = true → isabs (normpath path) = true.
Proof.
  intros [rest ->]%isabs_inv. unfold normpath.
  rewrite bool_decide_false by done.
  change (startswith (String "/" rest) "/") with true. cbv iota.
  destruct (startswith (String "/" rest) "//" && _);
    cbv iota zeta beta; done.
Qed.

Lemma join_abs_right a b : isabs b = true → join a b = b.
Proof. unfold join, isabs. by intros ->. Qed.

Lemma join_isabs a b : isabs a = true → isabs (join a b) = true.
Proof.
  intros [rest ->]%isabs_inv. unfold join.
  destruct (startswith b "/") eqn:Hb; [done|].
  by destruct (_ || _).
Qed.

Lemma getcwd_isabs `{Environment} : isabs getcwd = true.
Proof. done. Qed.

Lemma abspath_isabs `{Environment} path : isabs (abspath path) = true.
Proof.
  unfold abspath. apply normpath_isabs.
  destruct (isabs path) eqn:Hp; [done|]. apply join_isabs, getcwd_isabs.
Qed.

End PathFacts.

Module CacheFacts.
Import OsPath Cache PathFacts.

Section Transport.
Context `{Environment}.
Implicit Types (t : CachedHTTPTransport) (w : World) (st : St).

Lemma get_cached_file_path_isabs t fname :
  isabs (get_cached_file_path t fname) = true.
Proof. apply join_isabs, abspath_isabs. Qed.

(** Resolving an already resolved path gives it back. *)
Lemma get_cached_file_path_resolved t fname :
  get_cached_file_path t (get_cached_file_path t fname)
  = get_cached_file_path t fname.
Proof.
  unfold get_cached_file_path at 1.
  apply join_abs_right, get_cached_file_path_isabs.
Qed.

Lemma get_cached_item_resolved t fname w :
  get_cached_item t (get_cached_file_path t fname) w = get_cached_item t fname w.
Proof. unfold get_cached_item. by rewrite get_cached_file_path_resolved. Qed.

Lemma get_cached_item_fresh t fname w content written :
  os_lookup w (get_cached_file_path t fname) = Some (File content written) →
  clock w - written ≤ cache_period t →
  get_cached_item t fname w
  = Ok (Some {| h_path := get_cached_file_path t fname; h_content := content |}).
Proof.
  intros Hfile Hfresh. unfold get_cached_item, open_rb. rewrite Hfile. simpl.
  rewrite bool_decide_false by lia. done.
Qed.

Lemma get_cached_item_expired t fname w f :
  os_lookup w (get_cached_file_path t fname) = Some f →
  clock w - st_mtime f > cache_period t →
  get_cached_item t fname w = Ok None.
Proof.
  intros Hfile Hold. unfold get_cached_item. rewrite Hfile. simpl.
  by rewrite bool_decide_true by lia.
Qed.

(** What a lookup hands out is a file that is there. *)
Lemma get_cached_item_Some t fname w h :
  get_cached_item t fname w = Ok (Some h) →
  ∃ written,
    os_lookup w (get_cached_file_path t fname) = Some (File (h_content h) written).
Proof.
  unfold get_cached_item, open_rb.
  destruct (os_lookup w _) as [[m|content m]|]; simpl; try done.
  - by case_bool_decide.
  - case_bool_decide; [done|]. intros [= <-]. eauto.
Qed.

Lemma st_eta st : {| world := world st; downloads := downloads st |} = st.
Proof. by destruct st. Qed.

Lemma read_bind {A B} (f : World → Result A) (k : A → M St B) st a :
  f (world st) = Ok a → (read f ≫= k) st = k a st.
Proof. intros Hf. unfold mbind, M_bind, read. by rewrite Hf. Qed.

(** [purge_cache] hands a [timedelta] to [rmtree]. *)
Lemma purge_cache_raises t st : purge_cache t st = (Raise TypeError, st).
Proof. unfold purge_cache, in_world. simpl. by rewrite st_eta. Qed.

(** C2, as the code has it.  A cache entry whose file was written at time
    [T] is VALID, its content handed out, at every query time up to and
    including [T + P], and EXPIRED, nothing handed out, at every query time
    after [T + P]. *)
Theorem cache_entry_valid_through_deadline t fname w content T :
  os_lookup w (get_cached_file_path t fname) = Some (File content T) →
  (clock w ≤ T + cache_period t →
   get_cached_item t fname w
   = Ok (Some {| h_path := get_cached_file_path t fname;
                 h_content := content |}))
  ∧ (T + cache_period t < clock w → get_cached_item t fname w = Ok None).
Proof.
  intros Hfile. split; intros Hclock.
  - apply (get_cached_item_fresh t fname w content T); [done|lia].
  - apply (get_cached_item_expired t fname w (File content T)); [done|].
    simpl. lia.
Qed.

(** [os.makedirs] adds directories where nothing was and changes nothing
    else. *)
Lemma mkdirs_frame dirs w r w' k :
  mkdirs dirs w = (r, w') →
  fs w' !! k = fs w !! k ∨ (fs w !! k = None ∧ ∃ m, fs w' !! k = Some (Dir m)).
Proof.
  revert w. induction dirs as [|d dirs IH]; intros w; simpl.
  - intros [= _ <-]. by left.
  - destruct (fs w !! d) as [[m|content m]|] eqn:Hd.
    + apply IH.
    + intros [= _ <-]. by left.
    + intros Hrest. apply IH in Hrest. simpl in Hrest.
      destruct (decide (d = k)) as [->|Hne].
      * right. split; [done|].
        destruct Hrest as [Hsame|[Hnone _]].
        -- rewrite Hsame, lookup_insert_eq. eauto.
        -- by rewrite lookup_insert_eq in Hnone.
      * by rewrite lookup_insert_ne in Hrest.
Qed.

Lemma in_world_bind {A B} (m : M World A) (k : A → M St B) st :
  (in_world m ≫= k) st
  = match m (world st) with
    | (Ok a, w') => k a {| world := w'; downloads := downloads st |}
    | (Raise e, w') => (Raise e, {| world := w'; downloads := downloads st |})
    end.
Proof.
  unfold mbind, M_bind, in_world. by destruct (m (world st)) as [[a|e] w'].
Qed.

(** C3, as the code has it.  [save_response] hands the resolved path to the
    download function and adds no temporary file, rename or cleanup of its
    own.  When the download function is all-or-nothing, a failed store
    promotes nothing: whatever a later lookup reports as VALID content is
    the file that was at the resolved path before the call, with the
    content and the modification time it had then. *)
Theorem failed_store_keeps_entry_when_download_is_all_or_nothing
    t fname api_path params_ st e st' h :
  all_or_nothing (download_func t) →
  save_response t (get_cached_file_path t fname) api_path params_ st
  = (Raise e, st') →
  get_cached_item t fname (world st') = Ok (Some h) →
  ∃ written,
    os_lookup (world st) (get_cached_file_path t fname)
    = Some (File (h_content h) written)
    ∧ os_lookup (world st') (get_cached_file_path t fname)
      = Some (File (h_content h) written).
Proof.
  intros Hatomic Hsave [written Hafter]%get_cached_item_Some.
  exists written. split; [|done].
  unfold save_response in Hsave. rewrite in_world_bind in Hsave.
  unfold makedirs in Hsave.
  destruct (mkdirs _ (world st)) as [[[]|e1] w1] eqn:Hmk.
  - unfold call_download_func in Hsave. simpl in Hsave.
    destruct (download_func t _ _ _ _ w1) as [[[]|e2] w2] eqn:Hdl; [done|].
    injection Hsave as _ <-. simpl in Hafter.
    apply Hatomic in Hdl. rewrite Hdl in Hafter. unfold os_lookup in *.
    destruct (mkdirs_frame _ _ _ _ (abspath (get_cached_file_path t fname)) Hmk)
      as [Hsame|[_ [m Hdir]]]; congruence.
  - injection Hsave as _ <-. simpl in Hafter. unfold os_lookup in *.
    destruct (mkdirs_frame _ _ _ _ (abspath (get_cached_file_path t fname)) Hmk)
      as [Hsame|[_ [m Hdir]]]; congruence.
Qed.

Lemma exception_hook_raises response e :
  exception_hook response = Raise e
  ↔ 400 ≤ status_code response ∧ e = APIError (text response).
Proof.
  unfold exception_hook. case_bool_decide; split.
  - by intros [= <-].
  - by intros [_ ->].
  - done.
  - intros [? _]. lia.
Qed.

Lemma session_request_raises api_key method_ url_ params_ w response e :
  http w {| method := method_; url := url_; params := params_;
            headers := session_headers (create_requests_client api_key) |}
  = Some response →
  session_request (create_requests_client api_key) method_ url_ params_ w
  = Raise e
  ↔ 400 ≤ status_code response ∧ e = APIError (text response).
Proof.
  intros Hwire. unfold session_request. rewrite Hwire.
  unfold dispatch_hook. simpl. rewrite lookup_singleton_eq.
  rewrite <- exception_hook_raises.
  destruct (exception_hook response) as [[r|]|e']; simpl; split; congruence.
Qed.

Lemma session_request_returns api_key method_ url_ params_ w response r :
  http w {| method := method_; url := url_; params := params_;
            headers := session_headers (create_requests_client api_key) |}
  = Some response →
  session_request (create_requests_client api_key) method_ url_ params_ w = Ok r →
  status_code response < 400.
Proof.
  intros Hwire Hok. destruct (decide (400 ≤ status_code response)); [|lia].
  pose proof (session_request_raises api_key method_ url_ params_ w response
                (APIError (text response)) Hwire) as [_ Hraise].
  rewrite Hraise in Hok by done. done.
Qed.

Lemma json_call_raises api_key method_ url_ params_ w response body :
  http w {| method := method_; url := url_; params := params_;
            headers := session_headers (create_requests_client api_key) |}
  = Some response →
  bind (session_request (create_requests_client api_key) method_ url_ params_ w)
       json = Raise (APIError body)
  ↔ 400 ≤ status_code response ∧ body = text response.
Proof.
  intros Hwire.
  destruct (session_request _ _ _ _ w) as [r|e] eqn:Hcall; simpl.
  - apply (session_request_returns _ _ _ _ _ _ _ Hwire) in Hcall.
    unfold json. destruct (json_loads _); split; try done; intros [? _]; lia.
  - apply (session_request_raises _ _ _ _ _ _ _ Hwire) in Hcall as [Hst ->].
    split; [by intros [= <-]|by intros [_ ->]].
Qed.

(** C4. The response hook raises exactly on a status of 400 or more, and
    what it raises is an [APIError] carrying the raw body.  The hook sits on
    the session of every constructed transport: for any request made through
    that session and any response that arrives, the call raises if and only
    if the status is 400 or more, and then raises that [APIError]; so do
    [get_json_response] and [post_json_response].  A 404 response with body
    "not found" makes them raise [APIError "not found"]. *)
Theorem error_status_raises_APIError_with_body
    download_func_ endpoint_ cache_period_ cache_path_ api_key :
  let t := __init__ download_func_ endpoint_ cache_period_ cache_path_ api_key in
  (∀ response e,
     exception_hook response = Raise e
     ↔ 400 ≤ status_code response ∧ e = APIError (text response))
  ∧ (∀ method_ url_ params_ w response e,
       http w {| method := method_; url := url_; params := params_;
                 headers := session_headers (requests t) |} = Some response →
       session_request (requests t) method_ url_ params_ w = Raise e
       ↔ 400 ≤ status_code response ∧ e = APIError (text response))
  ∧ (∀ api_path params_ w response body,
       (∀ req, http w req = Some response) →
       (get_json_response t api_path params_ w = Raise (APIError body)
        ↔ 400 ≤ status_code response ∧ body = text response)
       ∧ (post_json_response t api_path params_ w = Raise (APIError body)
          ↔ 400 ≤ status_code response ∧ body = text response))
  ∧ (∀ api_path params_ w,
       (∀ req, http w req = Some {| status_code := 404; text := "not found" |}) →
       get_json_response t api_path params_ w = Raise (APIError "not found")
       ∧ post_json_response t api_path params_ w = Raise (APIError "not found")).
Proof.
  intros t. split; [apply exception_hook_raises|]. split; [|split].
  - intros method_ url_ params_ w response e. apply session_request_raises.
  - intros api_path params_ w response body Hwire.
    unfold get_json_response, post_json_response.
    split; apply json_call_raises, Hwire.
  - intros api_path params_ w Hwire.
    unfold get_json_response, post_json_response.
    split.
    + pose proof (session_request_raises api_key "GET"
        (endpoint t +:+ "/" +:+ api_path) params_ w _
        (APIError "not found") (Hwire _)) as [_ Hraise].
      change (requests t) with (create_requests_client api_key).
      rewrite Hraise; [done|]. simpl. split; [lia|done].
    + pose proof (session_request_raises api_key "POST"
        (endpoint t +:+ "/" +:+ api_path) params_ w _
        (APIError "not found") (Hwire _)) as [_ Hraise].
      change (requests t) with (create_requests_client api_key).
      rewrite Hraise; [done|]. simpl. split; [lia|done].
Qed.

Lemma fetch_hit t fname (rest : M St (option FileHandle)) st h :
  get_cached_item t fname (world st) = Ok (Some h) →
  (cached ← read (get_cached_item t fname);
   match cached with Some _ => mret cached | None => rest end) st
  = (Ok (Some h), st).
Proof. intros Hhit. by rewrite (read_bind _ _ _ (Some h)). Qed.

Lemma downloads_during_unchanged {A} (m : M St A) st r :
  m st = (r, st) → downloads_during m st = [].
Proof.
  intros Hm. unfold downloads_during. rewrite Hm. simpl.
  by rewrite drop_all.
Qed.

(** C5. For each of the four dataset kinds, when the cache entry is VALID at
    the time of the call the fetch returns the cached content and leaves
    the state as it was; the download function is called zero times. *)
Theorem fetch_on_valid_entry_returns_cached_without_download t st h :
  let hit (fname : string) (fetch : M St (option FileHandle)) :=
    get_cached_item t fname (world st) = Ok (Some h) →
    fetch st = (Ok (Some h), st) ∧ downloads_during fetch st = [] in
  hit "pair-universe.parquet" (fetch_pair_universe t)
  ∧ hit "exchange-universe.json" (fetch_exchange_universe t)
  ∧ (∀ bucket, hit ("candles-" +:+ bucket +:+ ".parquet")
                   (fetch_candles_all_time t bucket))
  ∧ (∀ bucket, hit ("liquidity-samples-" +:+ bucket +:+ ".parquet")
                   (fetch_liquidity_all_time t bucket)).
Proof.
  cbv zeta.
  assert (Hgen : ∀ fname rest,
    get_cached_item t fname (world st) = Ok (Some h) →
    let fetch : M St (option FileHandle) :=
      cached ← read (get_cached_item t fname);
      match cached with Some _ => mret cached | None => rest end in
    fetch st = (Ok (Some h), st) ∧ downloads_during fetch st = []).
  { intros fname rest Hhit fetch.
    assert (Hrun : fetch st = (Ok (Some h), st))
      by by apply fetch_hit.
    split; [done|]. by eapply downloads_during_unchanged. }
  split; [apply Hgen|]. split; [apply Hgen|].
  split; intros bucket; apply Hgen.
Qed.

Lemma bind_assoc_at {S A B C} (m : M S A) (k1 : A → M S B) (k2 : B → M S C) s :
  ((m ≫= k1) ≫= k2) s = (m ≫= λ a, k1 a ≫= k2) s.
Proof.
  unfold mbind, M_bind. destruct (m s) as [[a|e] s']; [|done].
  by destruct (k1 a s') as [[b|e] s''].
Qed.

Lemma fetch_miss t fname api params_ relookup st w2 content written :
  let path := get_cached_file_path t fname in
  let url_ := endpoint t +:+ "/" +:+ api in
  let fetch : M St (option FileHandle) :=
    cached ← read (get_cached_item t fname);
    match cached with
    | Some _ => mret cached
    | None =>
        save_response t path api params_;;
        read (get_cached_item t relookup)
    end in
  let call := {| dl_path := path; dl_url := url_; dl_params := params_ |} in
  relookup = fname ∨ relookup = path →
  get_cached_item t fname (world st) = Ok None →
  stores t path url_ params_ (world st) w2 content written →
  fetch st = (Ok (Some {| h_path := path; h_content := content |}),
              {| world := w2; downloads := (downloads st ++ [call])%list |})
  ∧ downloads_during fetch st = [call].
Proof.
  intros path url_ fetch call Hre Hmiss (w1 & Hmk & Hdl & Hfile & Hfresh).
  assert (Hrun : fetch st
    = (Ok (Some {| h_path := path; h_content := content |}),
       {| world := w2; downloads := (downloads st ++ [call])%list |})).
  { unfold fetch. rewrite (read_bind _ _ _ None) by done.
    unfold save_response. rewrite bind_assoc_at, in_world_bind, Hmk.
    unfold mbind, M_bind, call_download_func. simpl. fold url_ path.
    rewrite Hdl. unfold read. simpl. f_equal.
    assert (Hlook : get_cached_item t relookup w2 = get_cached_item t fname w2).
    { destruct Hre as [->| ->]; [done|apply get_cached_item_resolved]. }
    rewrite Hlook. by apply (get_cached_item_fresh t fname w2 content written). }
  split; [done|]. unfold downloads_during. rewrite Hrun. simpl.
  by rewrite drop_app_length.
Qed.

(** C6. For each dataset kind, when the lookup finds the entry EXPIRED or
    ABSENT and the store succeeds (the cache root is ensured, the download
    function returns normally, and the file it left at the resolved path is
    no older than the cache period when it is looked up again), the fetch
    calls the download function exactly once, with the resolved cache path
    as destination, the kind-specific resource under the endpoint as URL
    and, for the two time series, the bucket as the [bucket] query
    parameter; it then returns a handle on the file the download left at
    the resolved path, with its content. *)
Theorem fetch_on_miss_downloads_and_returns_fresh_content
    t bucket st w2 content written :
  let miss (fname api : string) (params_ : option (gmap string string))
           (fetch : M St (option FileHandle)) :=
    let path := get_cached_file_path t fname in
    let url_ := endpoint t +:+ "/" +:+ api in
    let call := {| dl_path := path; dl_url := url_; dl_params := params_ |} in
    get_cached_item t fname (world st) = Ok None →
    stores t path url_ params_ (world st) w2 content written →
    fetch st = (Ok (Some {| h_path := path; h_content := content |}),
                {| world := w2; downloads := (downloads st ++ [call])%list |})
    ∧ downloads_during fetch st = [call] in
  miss ("candles-" +:+ bucket +:+ ".parquet") "candles-all"
       (Some {[ "bucket" := bucket ]}) (fetch_candles_all_time t bucket)
  ∧ miss ("liquidity-samples-" +:+ bucket +:+ ".parquet") "liquidity-all"
         (Some {[ "bucket" := bucket ]}) (fetch_liquidity_all_time t bucket)
  ∧ miss "pair-universe.parquet" "pair-universe" None (fetch_pair_universe t)
  ∧ miss "exchange-universe.json" "exchange-universe" None
         (fetch_exchange_universe t).
Proof.
  cbv zeta. split; [|split; [|split]]; intros Hmiss Hstore.
  1-2: by apply (fetch_miss t _ _ _ (get_cached_file_path t _) st w2 content
                   written); [right|..].
  all: by apply (fetch_miss t _ _ _ _ st w2 content written); [left|..].
Qed.

End Transport.
End CacheFacts.

(** * Evaluations on the sample data *)

Module Evaluations.
Import TokenFilter DefaultPipeline OsPath Cache Samples.
Import FilterFacts PipelineFacts PathFacts CacheFacts.

Lemma sample_pairs_accepted blacklist :
  (∀ bl, blacklist = Some bl → items bl ≠ [] → is_list_or_set bl = true) →
  accepted sample_pairs blacklist None.
Proof.
  intros Hbl. split; [|split; [done|exact Hbl]].
  apply (bool_decide_unpack (NoDup (map idx sample_pairs))). vm_compute. exact I.
Defined.

(** The quote-token example of the specification: of WETH/USDC at fee 5,
    SHIB/USDC at fee 100 and USDC/USDT at fee 1, with allow-set USDC, the
    default pipeline keeps the first two. *)
Example default_pipeline_on_sample :
  filter_pairs_default sample_pairs record_print (Some 100) None
    (PySet ["USDC"]) None None None None []
  = (Ok [pair 0 "WETH" "USDC" 5; pair 1 "SHIB" "USDC" 100],
     [("Pairs in the input dataset", 3%nat);
      ("Pairs having a good fee", 3%nat);
      ("Pairs that are not stable-stable", 2%nat);
      ("Pairs that are not derivative tokens", 2%nat);
      ("Pairs that are not rebase tokens", 2%nat);
      ("Pairs with good quote token", 2%nat);
      ("Pairs with clean ASCII token name", 2%nat)]).
Proof. vm_compute. reflexivity. Qed.

(** A symbol with a byte above 127 (here the two bytes of U+00E9) removes
    its pair. *)
Example nonascii_symbol_is_removed :
  let cafe := "CAF" +:+ String (ascii_of_nat 195) (String (ascii_of_nat 169) "") in
  filter_for_nonascii_tokens [pair 0 cafe "USDC" 5; pair 1 "WETH" "USDC" 5]
  = [pair 1 "WETH" "USDC" 5].
Proof. vm_compute. reflexivity. Qed.

(** A blacklisted symbol is matched whatever its case. *)
Example blacklist_ignores_case :
  filter_for_blacklisted_tokens [pair 0 "MKR" "USDC" 5; pair 1 "WETH" "USDC" 5]
    (PySet ["mkr"])
  = Ok [pair 1 "WETH" "USDC" 5].
Proof. vm_compute. reflexivity. Qed.

(** Witness of C7: chain, fee limit and blacklist requested. *)
Lemma filter_pairs_default_canonical_order_witness :
  runs_to_end sample_pairs (Some 30) (Some (PySet ["SHIB"])) None
    (Some ethereum)
  ∧ filter_pairs_default sample_pairs record_print (Some 30)
      (Some (PySet ["SHIB"])) (PyTuple DEFAULT_GOOD_QUOTE_TOKENS)
      None None None (Some ethereum) []
    = (Ok [pair 0 "WETH" "USDC" 5],
       [("Pairs in the input dataset", 3%nat);
        ("Pairs on chain ethereum", 3%nat);
        ("Pairs having a good fee", 2%nat);
        ("Pairs that are not stable-stable", 1%nat);
        ("Pairs that are not derivative tokens", 1%nat);
        ("Pairs that are not rebase tokens", 1%nat);
        ("Pairs with good quote token", 1%nat);
        ("Pairs without blacklisted base token", 1%nat);
        ("Pairs with clean ASCII token name", 1%nat)]).
Proof.
  assert (Hacc : runs_to_end sample_pairs (Some 30) (Some (PySet ["SHIB"]))
                    None (Some ethereum)).
  { split; [intros bps _ _; left; reflexivity|].
    split; [intros s; discriminate|]. intros bl [= <-] _. reflexivity. }
  split; [exact Hacc|].
  etransitivity;
    [exact (filter_pairs_default_canonical_order record_print sample_pairs
              (Some 30) (Some (PySet ["SHIB"]))
              (PyTuple DEFAULT_GOOD_QUOTE_TOKENS) None None None
              (Some ethereum) [] Hacc)|].
  vm_compute. reflexivity.
Defined.



(** Witness of C10. *)
Lemma zero_fee_maximum_and_absent_chain_are_skipped_witness :
  accepted sample_pairs None None
  ∧ ∃ out,
      (filter_pairs_default sample_pairs record_print (Some 0) None
         (PyTuple DEFAULT_GOOD_QUOTE_TOKENS) None None None None []).1 = Ok out
      ∧ ∀ r, r ∈ out ↔
          r ∈ sample_pairs
          ∧ Forall (passes r)
              [ by_chain None; by_candle_presence None;
                by_exchange_objects None; by_exchange_ids None;
                Some non_stablecoin_only; Some without_derivatives;
                Some without_rebases;
                Some (by_quote_allow_set (PyTuple DEFAULT_GOOD_QUOTE_TOKENS));
                by_blacklist None; Some ascii_only ].
Proof.
  assert (Hacc : accepted sample_pairs None None)
    by (apply sample_pairs_accepted; intros bl [=]).
  split; [exact Hacc|].
  exact (proj1 (proj2 (zero_fee_maximum_and_absent_chain_are_skipped
                         record_print sample_pairs None
                         (PyTuple DEFAULT_GOOD_QUOTE_TOKENS)
                         None None None []) Hacc) None).
Defined.

(** With a maximum of 0 the pair at fee 100 stays. *)
Example zero_fee_maximum_keeps_every_tier :
  (filter_pairs_default sample_pairs record_print (Some 0) None
     (PyTuple DEFAULT_GOOD_QUOTE_TOKENS) None None None None []).1
  = Ok [pair 0 "WETH" "USDC" 5; pair 1 "SHIB" "USDC" 100].
Proof. vm_compute. reflexivity. Qed.

(** C1 at a cache that holds the pair universe: [purge_cache] raises
    [TypeError], the state is as before and the cached file is still
    handed out; [rmtree] on the cache path would have emptied the cache. *)
Theorem purge_cache_raises_and_deletes_nothing :
  let st := fresh (cached_at_0 100) in
  os_lookup (world st) (get_abs_cache_path t_complete) = Some (Dir 0)
  ∧ get_cached_item t_complete "pair-universe.parquet" (world st)
    = Ok (Some {| h_path := pair_universe_path; h_content := "PAR1-old-PAR1" |})
  ∧ purge_cache t_complete st = (Raise TypeError, st)
  ∧ get_cached_item t_complete "pair-universe.parquet"
      (world (purge_cache t_complete st).2)
    = Ok (Some {| h_path := pair_universe_path; h_content := "PAR1-old-PAR1" |})
  ∧ (let removed := rmtree (PyStr (cache_path t_complete)) (world st) in
     removed.1 = Ok ()
     ∧ get_cached_item t_complete "pair-universe.parquet" removed.2 = Ok None).
Proof.
  cbv zeta. split; [vm_compute; reflexivity|].
  split; [vm_compute; reflexivity|].
  split; [apply purge_cache_raises|].
  split; [rewrite purge_cache_raises; vm_compute; reflexivity|].
  split; vm_compute; reflexivity.
Qed.

(** C2 as stated fails at the deadline: a file written at time 0 is still
    handed out when the clock reads exactly the cache period. *)
Lemma cache_entry_still_valid_at_deadline :
  cache_period t_complete = DEFAULT_CACHE_PERIOD
  ∧ os_lookup (cached_at_0 (0 + DEFAULT_CACHE_PERIOD)) pair_universe_path
    = Some (File "PAR1-old-PAR1" 0)
  ∧ get_cached_item t_complete "pair-universe.parquet"
      (cached_at_0 (0 + DEFAULT_CACHE_PERIOD))
    = Ok (Some {| h_path := pair_universe_path; h_content := "PAR1-old-PAR1" |}).
Proof. repeat split; vm_compute; reflexivity. Qed.

(** Witness of C2 as amended, one microsecond before the deadline. *)
Lemma cache_entry_valid_through_deadline_witness :
  os_lookup (cached_at_0 (DEFAULT_CACHE_PERIOD - 1))
    (get_cached_file_path t_complete "pair-universe.parquet")
  = Some (File "PAR1-old-PAR1" 0)
  ∧ (clock (cached_at_0 (DEFAULT_CACHE_PERIOD - 1))
     ≤ 0 + cache_period t_complete →
     get_cached_item t_complete "pair-universe.parquet"
       (cached_at_0 (DEFAULT_CACHE_PERIOD - 1))
     = Ok (Some {| h_path := get_cached_file_path t_complete
                               "pair-universe.parquet";
                   h_content := "PAR1-old-PAR1" |})).
Proof.
  assert (Hfile : os_lookup (cached_at_0 (DEFAULT_CACHE_PERIOD - 1))
            (get_cached_file_path t_complete "pair-universe.parquet")
          = Some (File "PAR1-old-PAR1" 0)) by (vm_compute; reflexivity).
  split; [exact Hfile|].
  exact (proj1 (cache_entry_valid_through_deadline t_complete
                  "pair-universe.parquet" _ _ _ Hfile)).
Defined.

(** C3 as stated fails: the cache is empty, the download breaks off after
    four bytes, the store raises, and the next lookup hands out the four
    bytes as VALID content. *)
Lemma interrupted_download_leaves_valid_partial_entry :
  let st := fresh empty_cache in
  let failed := save_response t_interrupted pair_universe_path
                  "pair-universe" None st in
  let partial := {| h_path := pair_universe_path; h_content := "PAR1" |} in
  get_cached_file_path t_interrupted "pair-universe.parquet" = pair_universe_path
  ∧ get_cached_item t_interrupted "pair-universe.parquet" (world st) = Ok None
  ∧ failed.1 = Raise ConnectionError
  ∧ get_cached_item t_interrupted "pair-universe.parquet" (world failed.2)
    = Ok (Some partial)
  ∧ fetch_pair_universe t_interrupted st = (Raise ConnectionError, failed.2)
  ∧ fetch_pair_universe t_interrupted failed.2 = (Ok (Some partial), failed.2).
Proof. cbv zeta. repeat split; vm_compute; reflexivity. Qed.

Lemma complete_download_all_or_nothing : all_or_nothing complete_download.
Proof.
  intros session fpath url_ params_ w e w'. unfold complete_download.
  destruct (session_request _ _ _ _ _); [done|]. by intros [= _ <-].
Defined.

(** Witness of C3 as amended: without network the store fails and the old
    entry is the one still handed out. *)
Lemma failed_store_keeps_entry_when_download_is_all_or_nothing_witness :
  let st := fresh (offline 100) in
  let st' := (save_response t_complete
                (get_cached_file_path t_complete "pair-universe.parquet")
                "pair-universe" None st).2 in
  let h := {| h_path := pair_universe_path; h_content := "PAR1-old-PAR1" |} in
  all_or_nothing (download_func t_complete)
  ∧ save_response t_complete
      (get_cached_file_path t_complete "pair-universe.parquet")
      "pair-universe" None st = (Raise ConnectionError, st')
  ∧ get_cached_item t_complete "pair-universe.parquet" (world st') = Ok (Some h)
  ∧ ∃ written,
      os_lookup (world st)
        (get_cached_file_path t_complete "pair-universe.parquet")
      = Some (File (h_content h) written)
      ∧ os_lookup (world st')
          (get_cached_file_path t_complete "pair-universe.parquet")
        = Some (File (h_content h) written).
Proof.
  cbv zeta.
  assert (Hatomic : all_or_nothing (download_func t_complete))
    by exact complete_download_all_or_nothing.
  split; [exact Hatomic|].
  split; [vm_compute; reflexivity|].
  split; [vm_compute; reflexivity|].
  eapply (failed_store_keeps_entry_when_download_is_all_or_nothing
            t_complete "pair-universe.parquet" "pair-universe" None
            (fresh (offline 100)) ConnectionError _ _ Hatomic);
    vm_compute; reflexivity.
Defined.

(** Witness of C4: a server that answers 404 "not found". *)
Lemma error_status_raises_APIError_with_body_witness :
  let w := {| fs := ∅; clock := 0; http := answering 404 "not found" |} in
  (∀ req, http w req = Some {| status_code := 404; text := "not found" |})
  ∧ get_json_response t_complete "ping" None w = Raise (APIError "not found")
  ∧ post_json_response t_complete "ping" None w = Raise (APIError "not found").
Proof.
  cbv zeta.
  assert (Hwire : ∀ req,
            http {| fs := ∅; clock := 0; http := answering 404 "not found" |} req
            = Some {| status_code := 404; text := "not found" |})
    by reflexivity.
  split; [exact Hwire|].
  exact (proj2 (proj2 (proj2 (error_status_raises_APIError_with_body
                                complete_download None DEFAULT_CACHE_PERIOD
                                (Some "/var/cache/ts") None)))
           "ping" None _ Hwire).
Defined.

(** Witness of C5: the pair universe is cached and fresh. *)
Lemma fetch_on_valid_entry_returns_cached_without_download_witness :
  let st := fresh (cached_at_0 100) in
  let h := {| h_path := pair_universe_path; h_content := "PAR1-old-PAR1" |} in
  get_cached_item t_complete "pair-universe.parquet" (world st) = Ok (Some h)
  ∧ fetch_pair_universe t_complete st = (Ok (Some h), st)
  ∧ downloads_during (fetch_pair_universe t_complete) st = [].
Proof.
  cbv zeta.
  assert (Hhit : get_cached_item t_complete "pair-universe.parquet"
                   (world (fresh (cached_at_0 100)))
                 = Ok (Some {| h_path := pair_universe_path;
                               h_content := "PAR1-old-PAR1" |}))
    by (vm_compute; reflexivity).
  split; [exact Hhit|].
  exact (proj1 (fetch_on_valid_entry_returns_cached_without_download
                  t_complete _ _) Hhit).
Defined.

(** Witness of C6: hourly candles fetched into the empty cache. *)
Lemma fetch_on_miss_downloads_and_returns_fresh_content_witness :
  let st := fresh empty_cache in
  let url_ := "https://candlelightdinner.tradingstrategy.ai/candles-all" in
  let params_ := Some {[ "bucket" := "1h" ]} in
  let call := {| dl_path := candles_1h_path; dl_url := url_;
                 dl_params := params_ |} in
  get_cached_item t_complete "candles-1h.parquet" (world st) = Ok None
  ∧ stores t_complete candles_1h_path url_ params_ (world st) after_candles_1h
      "PAR1-pair-universe-PAR1" (clock empty_cache)
  ∧ fetch_candles_all_time t_complete "1h" st
    = (Ok (Some {| h_path := candles_1h_path;
                   h_content := "PAR1-pair-universe-PAR1" |}),
       {| world := after_candles_1h; downloads := [call] |})
  ∧ downloads_during (fetch_candles_all_time t_complete "1h") st = [call].
Proof.
  cbv zeta.
  assert (Hmiss : get_cached_item t_complete "candles-1h.parquet"
                    (world (fresh empty_cache)) = Ok None)
    by (vm_compute; reflexivity).
  assert (Hstore : stores t_complete candles_1h_path
            "https://candlelightdinner.tradingstrategy.ai/candles-all"
            (Some {[ "bucket" := "1h" ]}) (world (fresh empty_cache))
            after_candles_1h "PAR1-pair-universe-PAR1" (clock empty_cache)).
  { exists empty_cache. split; [vm_compute; reflexivity|].
    split; [vm_compute; reflexivity|].
    split; [vm_compute; reflexivity|]. vm_compute. discriminate. }
  split; [exact Hmiss|]. split; [exact Hstore|].
  exact (proj1 (fetch_on_miss_downloads_and_returns_fresh_content
                  t_complete "1h" (fresh empty_cache) after_candles_1h
                  "PAR1-pair-universe-PAR1" (clock empty_cache))
           Hmiss Hstore).
Defined.

(** C7 as stated fails for a blacklist given as a tuple and for candle ids
    given as a [pd.Series]: the run stops with an exception, at the
    blacklist step and at the candle step, and neither that step nor a
    later one is applied or reported, while the steps in their order give
    a table and seven reports. *)
Lemma pipeline_stops_at_tuple_blacklist_and_at_series_candle_ids :
  filter_pairs_default sample_pairs record_print (Some 100)
    (Some (PyTuple ["MKR"; "LDO"])) (PyTuple DEFAULT_GOOD_QUOTE_TOKENS)
    None None None None []
  = (Raise (AssertionError "Received"),
     [("Pairs in the input dataset", 3%nat);
      ("Pairs having a good fee", 3%nat);
      ("Pairs that are not stable-stable", 2%nat);
      ("Pairs that are not derivative tokens", 2%nat);
      ("Pairs that are not rebase tokens", 2%nat);
      ("Pairs with good quote token", 2%nat)])
  ∧ filter_pairs_default sample_pairs record_print (Some 100) None
      (PyTuple DEFAULT_GOOD_QUOTE_TOKENS) None None
      (Some (IdsSeries [100; 101])) None []
    = (Raise ValueError,
       [("Pairs in the input dataset", 3%nat);
        ("Pairs having a good fee", 3%nat)])
  ∧ run_steps
      (default_steps (Some 100) (Some (PyTuple ["MKR"; "LDO"]))
         (PyTuple DEFAULT_GOOD_QUOTE_TOKENS) None None None None)
      sample_pairs
    = ([pair 0 "WETH" "USDC" 5; pair 1 "SHIB" "USDC" 100],
       [("Pairs having a good fee", 3%nat);
        ("Pairs that are not stable-stable", 2%nat);
        ("Pairs that are not derivative tokens", 2%nat);
        ("Pairs that are not rebase tokens", 2%nat);
        ("Pairs with good quote token", 2%nat);
        ("Pairs without blacklisted base token", 2%nat);
        ("Pairs with clean ASCII token name", 2%nat)]).
Proof. split; [|split]; vm_compute; reflexivity. Qed.

(** Rows may share labels as long as no chain step comes before the fee
    step. *)
Example shared_labels_run_without_chain_step :
  ¬ NoDup (map idx MoreSamples.concatenated_pairs)
  ∧ runs_to_end MoreSamples.concatenated_pairs (Some 30) None None None
  ∧ filter_pairs_default MoreSamples.concatenated_pairs record_print (Some 30)
      None (PyTuple DEFAULT_GOOD_QUOTE_TOKENS) None None None None []
    = (Ok [pair 0 "WETH" "USDC" 5; pair 0 "UNI" "USDC" 30],
       [("Pairs in the input dataset", 3%nat);
        ("Pairs having a good fee", 2%nat);
        ("Pairs that are not stable-stable", 2%nat);
        ("Pairs that are not derivative tokens", 2%nat);
        ("Pairs that are not rebase tokens", 2%nat);
        ("Pairs with good quote token", 2%nat);
        ("Pairs with clean ASCII token name", 2%nat)]).
Proof.
  split; [|split].
  - intros Hnd. apply (bool_decide_pack _) in Hnd. vm_compute in Hnd.
    exact Hnd.
  - split; [intros bps _ _; left; reflexivity|].
    split; [intros s; discriminate|]. intros bl [=].
  - vm_compute. reflexivity.
Qed.

(** C6 as stated fails when the cache period is zero: the download is made
    and leaves the file at the resolved path, yet the fetch returns [None],
    the file being a microsecond old when it is looked up again. *)
Lemma fetch_returns_None_after_download_with_zero_period :
  let call := {| dl_path := candles_1h_path;
                 dl_url := "https://candlelightdinner.tradingstrategy.ai/candles-all";
                 dl_params := Some {[ "bucket" := "1h" ]} |} in
  get_cached_item MoreSamples.t_no_reuse "candles-1h.parquet" empty_cache
  = Ok None
  ∧ fetch_candles_all_time MoreSamples.t_no_reuse "1h" (fresh empty_cache)
    = (Ok None,
       {| world := MoreSamples.after_timed_candles_1h; downloads := [call] |})
  ∧ os_lookup MoreSamples.after_timed_candles_1h candles_1h_path
    = Some (File "PAR1-pair-universe-PAR1" (clock empty_cache))
  ∧ cache_period MoreSamples.t_no_reuse = 0.
Proof. cbv zeta. split; [|split; [|split]]; vm_compute; reflexivity. Qed.

End Evaluations.

(** * Facts about string concatenation *)

Module StringFacts.

Lemma append_cons c (s t : string) : String c s +:+ t = String c (s +:+ t).
Proof. done. Qed.

Lemma append_nil_r (s : string) : s +:+ "" = s.
Proof. induction s as [|c s IH]; [done|]. by rewrite !append_cons, IH. Qed.

Lemma append_assoc (s1 s2 s3 : string) : (s1 +:+ s2) +:+ s3 = s1 +:+ (s2 +:+ s3).
Proof. induction s1 as [|c s1 IH]; [done|]. by rewrite !append_cons, IH. Qed.

Lemma append_length (s1 s2 : string) :
  String.length (s1 +:+ s2) = (String.length s1 + String.length s2)%nat.
Proof. induction s1 as [|c s1 IH]; [done|]. rewrite append_cons. cbn. by rewrite IH. Qed.

Lemma append_inj_l (s1 s2 t : string) : s1 +:+ t = s2 +:+ t → s1 = s2.
Proof.
  revert s2. induction s1 as [|c s1 IH]; intros [|c' s2]; [done| | |].
  - intros Heq. apply (f_equal String.length) in Heq.
    rewrite !append_length in Heq. cbn in Heq. lia.
  - intros Heq. apply (f_equal String.length) in Heq.
    rewrite !append_length in Heq. cbn in Heq. lia.
  - rewrite !append_cons. intros [= -> Heq]. f_equal. by apply IH.
Qed.

End StringFacts.

(** * Further properties of the filters *)

Module FilterExtras.
Import TokenFilter TokenFilterRest DefaultPipeline FilterFacts PipelineFacts.
Import StringFacts.

Section Lists.
Context {A : Type}.
Implicit Types (p q : A → bool) (l : list A).

Lemma elem_of_filter p l x : x ∈ List.filter p l ↔ x ∈ l ∧ p x = true.
Proof. by rewrite !list_elem_of_In, filter_In. Qed.

Lemma filter_sublist p l : List.filter p l `sublist_of` l.
Proof.
  induction l as [|a l IH]; simpl; [done|].
  destruct (p a); [by apply sublist_skip|by apply sublist_cons].
Qed.

Lemma filter_and p q l :
  List.filter q (List.filter p l) = List.filter (λ x, p x && q x) l.
Proof.
  induction l as [|a l IH]; simpl; [done|].
  destruct (p a) eqn:Hp; simpl; rewrite ?IH; [|done]. by destruct (q a).
Qed.

Lemma filter_all p l : (∀ x, x ∈ l → p x = true) → List.filter p l = l.
Proof.
  induction l as [|a l IH]; intros Hall; simpl; [done|].
  rewrite (Hall a) by left. f_equal. apply IH. intros x Hx. apply Hall. by right.
Qed.

Lemma filter_idemp p l : List.filter p (List.filter p l) = List.filter p l.
Proof. apply filter_all. by intros x [_ Hx]%elem_of_filter. Qed.

Lemma filter_none p l : (∀ x, p x = false) → List.filter p l = [].
Proof. intros Hp. induction l as [|a l IH]; simpl; [done|]. by rewrite Hp. Qed.

(** A predicate and its negation split a list. *)
Lemma filter_split p q l :
  (∀ x, q x = negb (p x)) →
  List.filter p l ++ List.filter q l ≡ₚ l
  ∧ (length (List.filter p l) + length (List.filter q l) = length l)%nat
  ∧ ∀ x, x ∈ l →
      (x ∈ List.filter p l ∨ x ∈ List.filter q l)
      ∧ ¬ (x ∈ List.filter p l ∧ x ∈ List.filter q l).
Proof.
  intros Hq. split; [|split].
  - induction l as [|a l IH]; simpl; [done|]. rewrite Hq.
    destruct (p a); simpl; [by f_equiv|].
    by rewrite <- Permutation_middle, IH.
  - induction l as [|a l IH]; simpl; [done|]. rewrite Hq.
    destruct (p a); simpl; lia.
  - intros x Hx. rewrite !elem_of_filter, Hq. destruct (p x); simpl; split;
      try tauto; intros [[_ ?] [_ ?]]; done.
Qed.

Lemma Ok_filter_ext p q l :
  (∀ x, p x = q x) → Ok (List.filter p l) = Ok (List.filter q l).
Proof. intros Hext. by rewrite (List.filter_ext p q Hext). Qed.

Lemma isin_true `{EqDecision A} (x : A) l : isin x l = true ↔ x ∈ l.
Proof. unfold isin. by rewrite bool_decide_eq_true. Qed.

Lemma isin_same_elements `{EqDecision A} (x : A) l l' :
  (∀ a, a ∈ l ↔ a ∈ l') → isin x l = isin x l'.
Proof. intros Hsame. unfold isin. apply bool_decide_ext, Hsame. Qed.

Lemma isin_app `{EqDecision A} (x : A) l l' :
  isin x (l ++ l') = isin x l || isin x l'.
Proof.
  unfold isin. apply eq_true_iff_eq.
  rewrite orb_true_iff, !bool_decide_eq_true, elem_of_app. done.
Qed.

End Lists.

Section Filters.
Context `{Environment}.
Implicit Types (pairs : DataFrame) (r : DEXPair).

Lemma token_side_filter (symbol : DEXPair → string) pairs addresses :
  (addresses_accepted addresses →
   ∃ out, filter_for_base_tokens symbol pairs addresses = Ok out
     ∧ out `sublist_of` pairs
     ∧ ∀ r, r ∈ out ↔
         r ∈ pairs
         ∧ ((token0_address r ∈ items addresses ∧ token0_symbol r = symbol r)
            ∨ (token1_address r ∈ items addresses ∧ token1_symbol r = symbol r)))
  ∧ (¬ addresses_accepted addresses →
     ∃ msg, filter_for_base_tokens symbol pairs addresses
            = Raise (AssertionError msg))
  ∧ (∀ addresses',
       addresses_accepted addresses → addresses_accepted addresses' →
       (∀ a, a ∈ items addresses ↔ a ∈ items addresses') →
       filter_for_base_tokens symbol pairs addresses
       = filter_for_base_tokens symbol pairs addresses').
Proof.
  assert (Hcheck : ∀ c : PyColl string,
    existsb (λ addr, negb (bool_decide (addr = str_lower addr))) (items c) = false
    ↔ Forall (λ addr, addr = str_lower addr) (items c)).
  { intros c. rewrite <- not_true_iff_false, existsb_exists, Forall_forall.
    split.
    - intros Hno a Ha. destruct (decide (a = str_lower a)) as [|Hne]; [done|].
      destruct Hno. exists a. split; [by apply list_elem_of_In|].
      by rewrite bool_decide_false.
    - intros Hall (a & Ha & Hbad). apply list_elem_of_In, Hall in Ha.
      by rewrite bool_decide_true in Hbad. }
  unfold filter_for_base_tokens, addresses_accepted. split; [|split].
  - intros [Hkind Hlow]. rewrite Hkind. simpl.
    apply Hcheck in Hlow. rewrite Hlow.
    eexists. split; [done|]. split; [apply filter_sublist|]. intros r.
    unfold loc. rewrite elem_of_filter, orb_true_iff, !andb_true_iff,
      !isin_true, !bool_decide_eq_true. done.
  - intros Hbad. destruct (is_list_or_set addresses); simpl; [|eauto].
    destruct (existsb _ _) eqn:Hex; [eauto|].
    destruct Hbad. split; [done|]. by apply Hcheck.
  - intros addresses' [Hkind Hlow] [Hkind' Hlow'] Hsame.
    rewrite Hkind, Hkind'. simpl.
    apply Hcheck in Hlow, Hlow'. rewrite Hlow, Hlow'.
    apply Ok_filter_ext. intros r.
    by rewrite !(isin_same_elements _ _ _ Hsame).
Qed.

(** The quote token filter fails fast and otherwise selects by quote side.
    It returns a table exactly when the addresses come as a list or a set
    and each equals its lower-cased form, and raises [AssertionError]
    otherwise.  The table returned holds, in their order, the rows one of
    whose tokens has its address in the collection and carries the quote
    token symbol; it depends only on which addresses the collection holds. *)
Theorem filter_for_quote_tokens_checks_then_selects pairs addresses :
  (addresses_accepted addresses →
   ∃ out, filter_for_quote_tokens pairs addresses = Ok out
     ∧ out `sublist_of` pairs
     ∧ ∀ r, r ∈ out ↔
         r ∈ pairs
         ∧ ((token0_address r ∈ items addresses
             ∧ token0_symbol r = quote_token_symbol r)
            ∨ (token1_address r ∈ items addresses
               ∧ token1_symbol r = quote_token_symbol r)))
  ∧ (¬ addresses_accepted addresses →
     ∃ msg, filter_for_quote_tokens pairs addresses = Raise (AssertionError msg))
  ∧ (∀ addresses',
       addresses_accepted addresses → addresses_accepted addresses' →
       (∀ a, a ∈ items addresses ↔ a ∈ items addresses') →
       filter_for_quote_tokens pairs addresses
       = filter_for_quote_tokens pairs addresses').
Proof. exact (token_side_filter quote_token_symbol pairs addresses). Qed.

(** The base token filter does the same on the base side, whatever the
    [base_token_symbol] column holds. *)
Theorem filter_for_base_tokens_checks_then_selects
    (base_token_symbol : DEXPair → string) pairs addresses :
  (addresses_accepted addresses →
   ∃ out, filter_for_base_tokens base_token_symbol pairs addresses = Ok out
     ∧ out `sublist_of` pairs
     ∧ ∀ r, r ∈ out ↔
         r ∈ pairs
         ∧ ((token0_address r ∈ items addresses
             ∧ token0_symbol r = base_token_symbol r)
            ∨ (token1_address r ∈ items addresses
               ∧ token1_symbol r = base_token_symbol r)))
  ∧ (¬ addresses_accepted addresses →
     ∃ msg, filter_for_base_tokens base_token_symbol pairs addresses
            = Raise (AssertionError msg)).
Proof.
  destruct (token_side_filter base_token_symbol pairs addresses)
    as (Hok & Hbad & _). by split.
Qed.

(** [filter_for_exchange] treats one slug as the collection holding just
    that slug, gives the empty table for an empty collection, depends only
    on which slugs a collection holds, and raises [AssertionError] for an
    argument that is neither a string nor a tuple, set or list. *)
Theorem filter_for_exchange_slug_or_collection
    (exchange_slug : DEXPair → string) pairs :
  (∀ slug,
     filter_for_exchange exchange_slug pairs (OneSlug slug)
     = filter_for_exchange exchange_slug pairs (Slugs (PyList [slug])))
  ∧ (∀ slugs, items slugs = [] →
       filter_for_exchange exchange_slug pairs (Slugs slugs) = Ok [])
  ∧ (∀ slugs slugs', (∀ a, a ∈ items slugs ↔ a ∈ items slugs') →
       filter_for_exchange exchange_slug pairs (Slugs slugs)
       = filter_for_exchange exchange_slug pairs (Slugs slugs'))
  ∧ (∀ slugs out r,
       filter_for_exchange exchange_slug pairs (Slugs slugs) = Ok out →
       r ∈ out ↔ r ∈ pairs ∧ exchange_slug r ∈ items slugs)
  ∧ (∃ msg, filter_for_exchange exchange_slug pairs OtherObject
            = Raise (AssertionError msg)).
Proof.
  unfold filter_for_exchange, loc. split; [|split; [|split; [|split]]].
  - intros slug. apply Ok_filter_ext. intros r. unfold isin. simpl.
    apply bool_decide_ext. by rewrite list_elem_of_singleton.
  - intros slugs ->. f_equal. by apply filter_none.
  - intros slugs slugs' Hsame. apply Ok_filter_ext. intros r.
    by apply isin_same_elements.
  - intros slugs out r [= <-]. by rewrite elem_of_filter, isin_true.
  - eauto.
Qed.

(** The stablecoin modes split a table: its stable-stable rows and its
    other rows together are the table again, each row in exactly one part;
    [all_pairs] returns the table as it is. *)
Theorem filter_for_stablecoins_modes_split_the_table pairs :
  let stable := filter_for_stablecoins pairs only_stablecoin_pairs in
  let volatile := filter_for_stablecoins pairs only_volatile_pairs in
  filter_for_stablecoins pairs all_pairs = pairs
  ∧ stable ++ volatile ≡ₚ pairs
  ∧ (length stable + length volatile = length pairs)%nat
  ∧ ∀ r, r ∈ pairs →
      (r ∈ stable ∨ r ∈ volatile) ∧ ¬ (r ∈ stable ∧ r ∈ volatile).
Proof. cbv zeta. split; [done|]. by apply filter_split. Qed.

(** [filter_for_derivatives] with [derivatives=True] and with
    [derivatives=False] split a table between them: a row is in the first
    when one of its symbols is a derivative, in the second otherwise. *)
Theorem filter_for_derivatives_flag_splits_the_table pairs :
  let only := filter_for_derivatives pairs true in
  let without := filter_for_derivatives pairs false in
  only ++ without ≡ₚ pairs
  ∧ (length only + length without = length pairs)%nat
  ∧ (∀ r, r ∈ pairs →
       (r ∈ only ∨ r ∈ without) ∧ ¬ (r ∈ only ∧ r ∈ without))
  ∧ (∀ r, r ∈ only ↔
       r ∈ pairs ∧ (is_derivative (token0_symbol r) = true
                    ∨ is_derivative (token1_symbol r) = true)).
Proof.
  cbv zeta. unfold filter_for_derivatives, loc.
  split; [|split; [|split]]; try (apply filter_split; intros r;
    by rewrite negb_orb).
  intros r. by rewrite elem_of_filter, orb_true_iff.
Qed.

(** Likewise for [filter_for_rebases] and its [rebase] flag. *)
Theorem filter_for_rebases_flag_splits_the_table pairs :
  let only := filter_for_rebases pairs true in
  let without := filter_for_rebases pairs false in
  only ++ without ≡ₚ pairs
  ∧ (length only + length without = length pairs)%nat
  ∧ (∀ r, r ∈ pairs →
       (r ∈ only ∨ r ∈ without) ∧ ¬ (r ∈ only ∧ r ∈ without))
  ∧ (∀ r, r ∈ only ↔
       r ∈ pairs ∧ (is_rebase (token0_symbol r) = true
                    ∨ is_rebase (token1_symbol r) = true)).
Proof.
  cbv zeta. unfold filter_for_rebases, loc.
  split; [|split; [|split]]; try (apply filter_split; intros r;
    by rewrite negb_orb).
  intros r. by rewrite elem_of_filter, orb_true_iff.
Qed.

Lemma startswith_app s prefix :
  startswith s prefix = true ↔ ∃ rest, s = prefix +:+ rest.
Proof.
  revert s. induction prefix as [|a prefix IH]; intros s; simpl.
  - split; [eauto|done].
  - destruct s as [|b s]; [split; [done|by intros [rest ?]]|].
    rewrite andb_true_iff, bool_decide_eq_true, IH. split.
    + intros [-> [rest ->]]. eauto.
    + intros [rest [= -> ->]]. eauto.
Qed.

(** A symbol is a derivative exactly when it begins, in the same letter
    case, with one of the seven prefixes; so whatever begins with a
    derivative symbol is a derivative too, and the empty symbol is none. *)
Theorem is_derivative_iff_known_prefix token_symbol :
  (is_derivative token_symbol = true
   ↔ ∃ prefix rest,
       prefix ∈ DERIVATIVE_TOKEN_PREFIXES ∧ token_symbol = prefix +:+ rest)
  ∧ (∀ rest, is_derivative token_symbol = true →
             is_derivative (token_symbol +:+ rest) = true)
  ∧ is_derivative "" = false.
Proof.
  assert (Hiff : ∀ s, is_derivative s = true
            ↔ ∃ prefix rest,
                prefix ∈ DERIVATIVE_TOKEN_PREFIXES ∧ s = prefix +:+ rest).
  { intros s. unfold is_derivative. rewrite existsb_exists. split.
    - intros (prefix & Hin & [rest ->]%startswith_app).
      exists prefix, rest. by rewrite list_elem_of_In.
    - intros (prefix & rest & Hin & ->). exists prefix.
      rewrite <- list_elem_of_In, startswith_app. eauto. }
  split; [apply Hiff|]. split; [|done].
  intros rest (prefix & rest' & Hin & ->)%Hiff. apply Hiff.
  exists prefix, (rest' +:+ rest). by rewrite append_assoc.
Qed.

(** The blacklist filter composes: a blacklist in two parts removes what
    removing the first part and then the second removes.  An empty list or
    set removes nothing, a tuple raises [AssertionError], and no row that
    stays has an address or a lower-cased symbol among the lower-cased
    blacklist. *)
Theorem filter_for_blacklisted_tokens_composes pairs :
  (∀ first second,
     filter_for_blacklisted_tokens pairs (PyList (first ++ second))
     = bind (filter_for_blacklisted_tokens pairs (PyList first))
            (λ df, filter_for_blacklisted_tokens df (PyList second)))
  ∧ filter_for_blacklisted_tokens pairs (PyList []) = Ok pairs
  ∧ filter_for_blacklisted_tokens pairs (PySet []) = Ok pairs
  ∧ (∀ tokens, ∃ msg,
       filter_for_blacklisted_tokens pairs (PyTuple tokens)
       = Raise (AssertionError msg))
  ∧ (∀ blacklist out r token,
       filter_for_blacklisted_tokens pairs blacklist = Ok out →
       r ∈ out → token ∈ items blacklist →
       token0_address r ≠ str_lower token
       ∧ str_lower (token0_symbol r) ≠ str_lower token
       ∧ token1_address r ≠ str_lower token
       ∧ str_lower (token1_symbol r) ≠ str_lower token).
Proof.
  unfold filter_for_blacklisted_tokens, loc. simpl.
  split; [|split; [|split; [|split]]].
  - intros first second. rewrite filter_and.
    apply Ok_filter_ext. intros r. rewrite map_app, !isin_app.
    destruct (isin (token0_address r) _), (isin (str_lower (token0_symbol r)) _),
      (isin (token1_address r) _), (isin (str_lower (token1_symbol r)) _);
      simpl; try done; by rewrite ?orb_true_r.
  - f_equal. by apply filter_all.
  - f_equal. by apply filter_all.
  - eauto.
  - intros blacklist out r token Hout Hr Htoken.
    destruct (is_list_or_set blacklist); [|done]. simpl in Hout.
    injection Hout as <-. apply elem_of_filter in Hr as [_ Hkeep].
    rewrite !negb_orb, !andb_true_iff, !negb_true_iff in Hkeep.
    destruct Hkeep as [[[H0 H1] H2] H3].
    assert (Hin : str_lower token ∈ map str_lower (items blacklist))
      by by apply list_elem_of_fmap_2.
    repeat split; intros Heq; rewrite <- Heq in Hin;
      apply isin_true in Hin; congruence.
Qed.

(** The non-ASCII filter leaves rows whose symbols are made of bytes up to
    127 only, leaves a table of such rows as it is, and changes nothing
    when applied a second time. *)
Theorem filter_for_nonascii_tokens_leaves_ascii_only pairs :
  let ascii_symbol (s : string) :=
    Forall (λ c, (Ascii.nat_of_ascii c ≤ 127)%nat) (String.list_ascii_of_string s) in
  (∀ r, r ∈ filter_for_nonascii_tokens pairs ↔
     r ∈ pairs ∧ ascii_symbol (token0_symbol r) ∧ ascii_symbol (token1_symbol r))
  ∧ ((∀ r, r ∈ pairs →
        ascii_symbol (token0_symbol r) ∧ ascii_symbol (token1_symbol r)) →
     filter_for_nonascii_tokens pairs = pairs)
  ∧ filter_for_nonascii_tokens (filter_for_nonascii_tokens pairs)
    = filter_for_nonascii_tokens pairs.
Proof.
  cbv zeta.
  assert (Hascii : ∀ s,
    any_ord_above_127 s = false
    ↔ Forall (λ c, (Ascii.nat_of_ascii c ≤ 127)%nat)
             (String.list_ascii_of_string s)).
  { intros s. unfold any_ord_above_127.
    induction (String.list_ascii_of_string s) as [|c l IH]; simpl.
    - split; [by constructor|done].
    - rewrite orb_false_iff, Forall_cons, IH, Nat.ltb_ge. done. }
  assert (Hkeep : ∀ r,
    negb (any_ord_above_127 (token0_symbol r)
          || any_ord_above_127 (token1_symbol r)) = true
    ↔ Forall (λ c, (Ascii.nat_of_ascii c ≤ 127)%nat)
             (String.list_ascii_of_string (token0_symbol r))
      ∧ Forall (λ c, (Ascii.nat_of_ascii c ≤ 127)%nat)
               (String.list_ascii_of_string (token1_symbol r))).
  { intros r. by rewrite negb_true_iff, orb_false_iff, !Hascii. }
  unfold filter_for_nonascii_tokens, loc. split; [|split].
  - intros r. by rewrite elem_of_filter, Hkeep.
  - intros Hall. apply filter_all. intros r Hr. by apply Hkeep, Hall.
  - apply filter_idemp.
Qed.

(** [filter_for_trading_fee] rejects a fee outside the open interval from 0
    to 1, such as a fee given in basis points, with [AssertionError]; a
    table it returns is part of the input, in order, and all its rows have
    one and the same fee. *)
Theorem filter_for_trading_fee_rejects_and_selects_one_tier pairs :
  (∀ fee_pct, ((0 <? fee_pct) && (fee_pct <? 1))%float = false →
     ∃ msg, filter_for_trading_fee pairs fee_pct = Raise (AssertionError msg))
  ∧ (∃ msg, filter_for_trading_fee pairs 30 = Raise (AssertionError msg))
  ∧ (∃ msg, filter_for_trading_fee pairs 1 = Raise (AssertionError msg))
  ∧ (∃ msg, filter_for_trading_fee pairs 0 = Raise (AssertionError msg))
  ∧ (∃ msg, filter_for_trading_fee pairs nan = Raise (AssertionError msg))
  ∧ (∀ fee_pct out, filter_for_trading_fee pairs fee_pct = Ok out →
       out `sublist_of` pairs
       ∧ ∀ r r', r ∈ out → r' ∈ out → fee r = fee r').
Proof.
  unfold filter_for_trading_fee.
  split; [intros fee_pct ->; simpl; eauto|].
  do 4 (split; [simpl; eauto|]).
  intros fee_pct out. destruct (negb _); [done|].
  destruct (int_of_float _) as [int_fee|]; [|done]. simpl. intros [= <-].
  split; [apply filter_sublist|]. unfold loc.
  intros r r' [_ Hr%bool_decide_eq_true]%elem_of_filter
    [_ Hr'%bool_decide_eq_true]%elem_of_filter. congruence.
Qed.

End Filters.

Section Pipeline.
Context `{Environment} {S : Type} (verbose_print : string → nat → S → S).
Implicit Types (pairs_df : DataFrame) (r : DEXPair).

Lemma apply_opt_sublist (o : option Step) df : apply_opt o df `sublist_of` df.
Proof. destruct o as [[text keep]|]; simpl; [apply filter_sublist|done]. Qed.

Lemma apply_all_sublist (os : list (option Step)) df :
  apply_all os df `sublist_of` df.
Proof.
  revert df. induction os as [|o os IH]; intros df; simpl; [done|].
  etransitivity; [apply IH|apply apply_opt_sublist].
Qed.

Lemma apply_all_fixed (os : list (option Step)) df :
  (∀ r, r ∈ df → Forall (passes r) os) → apply_all os df = df.
Proof.
  revert df. induction os as [|o os IH]; intros df Hall; simpl; [done|].
  assert (Hfix : apply_opt o df = df).
  { destruct o as [[text keep]|]; simpl; [|done]. apply filter_all.
    intros r Hr. apply Hall in Hr. by inversion_clear Hr. }
  rewrite Hfix. apply IH. intros r Hr. apply Hall in Hr. by inversion_clear Hr.
Qed.

Lemma sublist_accepted pairs_df out blacklist candle_ids :
  out `sublist_of` pairs_df →
  accepted pairs_df blacklist candle_ids → accepted out blacklist candle_ids.
Proof.
  intros Hsub (Hnd & Hrest). split; [|exact Hrest].
  exact (sublist_NoDup _ _ Hnd (fmap_sublist idx _ _ Hsub)).
Qed.

Lemma run_steps_counts (steps : list Step) df :
  (run_steps steps df).1 `sublist_of` df
  ∧ Forall (λ n, (n ≤ length df)%nat) (run_steps steps df).2.*2
  ∧ StronglySorted ge (run_steps steps df).2.*2
  ∧ last (length df :: (run_steps steps df).2.*2)
    = Some (length (run_steps steps df).1).
Proof.
  revert df. induction steps as [|[text keep] steps IH]; intros df; simpl.
  - repeat split; [done|constructor|constructor].
  - destruct (IH (List.filter keep df)) as (Hsub & Hle & Hsorted & Hlast).
    destruct (run_steps steps (List.filter keep df)) as [out reports].
    simpl in *.
    assert (Hlen : (length (List.filter keep df) ≤ length df)%nat)
      by apply sublist_length, filter_sublist.
    split; [by etransitivity; [|apply filter_sublist]|].
    split; [constructor; [done|]; eapply Forall_impl; [done|]; simpl; lia|].
    split; [constructor; [done|]; eapply Forall_impl; [done|]; simpl; lia|].
    done.
Qed.

(** [filter_pairs_default] only narrows.  On accepted arguments the table
    returned is part of the input, rows in their order; the row counts
    handed to the print callback, the input size first, never go up from
    one report to the next, and the last one is the size of the table
    returned. *)
Theorem filter_pairs_default_only_narrows
    pairs_df max_fee blacklist good exchanges exchange_ids candle_ids chain
    (s : S) :
  accepted pairs_df blacklist candle_ids →
  ∃ out reports,
    filter_pairs_default pairs_df verbose_print max_fee blacklist good
      exchanges exchange_ids candle_ids chain s
    = (Ok out,
       print_all verbose_print
         (("Pairs in the input dataset", length pairs_df) :: reports) s)
    ∧ out `sublist_of` pairs_df
    ∧ StronglySorted ge (length pairs_df :: reports.*2)
    ∧ last (length pairs_df :: reports.*2) = Some (length out).
Proof.
  intros Hacc. rewrite filter_pairs_default_stages by done. cbv zeta.
  set (stages := default_stages _ _ _ _ _ _ _).
  destruct (run_steps_counts (omap id stages) pairs_df)
    as (Hsub & Hle & Hsorted & Hlast).
  exists (run_steps (omap id stages) pairs_df).1,
         (run_steps (omap id stages) pairs_df).2.
  split; [|split; [done|split; [by constructor|done]]].
  rewrite run_steps_apply_all. f_equal.
  change (print_all verbose_print (?r :: ?rs) s)
    with (print_all verbose_print rs (verbose_print r.1 r.2 s)).
  by rewrite run_steps_report_all.
Qed.

(** Filtering the result again with the same arguments gives the result
    again: every row that came through passes every step. *)
Theorem filter_pairs_default_idempotent
    pairs_df max_fee blacklist good exchanges exchange_ids candle_ids chain
    (s s' : S) :
  accepted pairs_df blacklist candle_ids →
  ∃ out,
    (filter_pairs_default pairs_df verbose_print max_fee blacklist good
       exchanges exchange_ids candle_ids chain s).1 = Ok out
    ∧ (filter_pairs_default out verbose_print max_fee blacklist good
         exchanges exchange_ids candle_ids chain s').1 = Ok out.
Proof.
  intros Hacc. rewrite filter_pairs_default_stages by done. cbv zeta.
  eexists. split; [done|].
  rewrite filter_pairs_default_stages
    by (eapply sublist_accepted; [apply apply_all_sublist|done]).
  cbv zeta. cbn [fst]. f_equal. apply apply_all_fixed.
  by intros r [_ Hr]%(elem_of_apply_all verbose_print).
Qed.

(** Whatever the optional arguments, no row of the result is a
    stable-stable pair, has a derivative or a rebase token on either side,
    has a quote token symbol outside the allow-set or a symbol with a byte
    above 127; with an empty allow-set the result is empty. *)
Theorem filter_pairs_default_result_is_tradeable
    pairs_df max_fee blacklist good exchanges exchange_ids candle_ids chain
    (s : S) :
  accepted pairs_df blacklist candle_ids →
  ∃ out,
    (filter_pairs_default pairs_df verbose_print max_fee blacklist good
       exchanges exchange_ids candle_ids chain s).1 = Ok out
    ∧ (∀ r, r ∈ out →
         ¬ (token0_symbol r ∈ ALL_STABLECOIN_LIKE
            ∧ token1_symbol r ∈ ALL_STABLECOIN_LIKE)
         ∧ is_derivative (token0_symbol r) = false
         ∧ is_derivative (token1_symbol r) = false
         ∧ is_rebase (token0_symbol r) = false
         ∧ is_rebase (token1_symbol r) = false
         ∧ quote_token_symbol r ∈ items good
         ∧ any_ord_above_127 (token0_symbol r) = false
         ∧ any_ord_above_127 (token1_symbol r) = false)
    ∧ (items good = [] → out = []).
Proof.
  intros Hacc. rewrite filter_pairs_default_stages by done. cbv zeta.
  eexists. split; [done|].
  assert (Hrows : ∀ r,
    r ∈ apply_all (default_stages max_fee blacklist good exchanges
                     exchange_ids candle_ids chain) pairs_df →
    ¬ (token0_symbol r ∈ ALL_STABLECOIN_LIKE
       ∧ token1_symbol r ∈ ALL_STABLECOIN_LIKE)
    ∧ is_derivative (token0_symbol r) = false
    ∧ is_derivative (token1_symbol r) = false
    ∧ is_rebase (token0_symbol r) = false
    ∧ is_rebase (token1_symbol r) = false
    ∧ quote_token_symbol r ∈ items good
    ∧ any_ord_above_127 (token0_symbol r) = false
    ∧ any_ord_above_127 (token1_symbol r) = false).
  { intros r [_ Hpass]%(elem_of_apply_all verbose_print).
    unfold default_stages in Hpass.
    rewrite !Forall_cons in Hpass.
    destruct Hpass as (_ & _ & _ & _ & _ & Hst & Hd & Hr & Hq & _ & Ha & _).
    simpl in Hst, Hd, Hr, Hq, Ha.
    rewrite negb_true_iff, andb_false_iff in Hst.
    rewrite negb_true_iff, orb_false_iff in Hd, Hr, Ha.
    apply isin_true in Hq.
    split; [|tauto].
    intros [H0%isin_true H1%isin_true]. destruct Hst; congruence. }
  split; [done|]. intros Hgood.
  destruct (apply_all _ pairs_df) as [|r out] eqn:Hout; [done|].
  destruct (Hrows r) as (_ & _ & _ & _ & _ & Hq & _); [left|].
  rewrite Hgood in Hq. by apply elem_of_nil in Hq.
Qed.

(** Argument errors surface in the middle of a run.  Candle ids given as a
    [pd.Series] raise [ValueError] after the input size and the chain and
    fee steps have been reported; a non-empty blacklist given as a tuple
    raises [AssertionError] after the first nine steps have been
    reported.  No table is returned. *)
Theorem filter_pairs_default_argument_errors
    pairs_df max_fee blacklist good exchanges exchange_ids candle_ids chain
    (s : S) :
  NoDup (map idx pairs_df) →
  let counted := verbose_print "Pairs in the input dataset" (length pairs_df) s in
  let stages := default_stages max_fee blacklist good exchanges exchange_ids
                  candle_ids chain in
  (∀ values, candle_ids = Some (IdsSeries values) →
     filter_pairs_default pairs_df verbose_print max_fee blacklist good
       exchanges exchange_ids candle_ids chain s
     = (Raise ValueError,
        report_all verbose_print (take 2 stages) pairs_df counted))
  ∧ (∀ tokens, blacklist = Some (PyTuple tokens) → tokens ≠ [] →
     (∀ values, candle_ids ≠ Some (IdsSeries values)) →
     filter_pairs_default pairs_df verbose_print max_fee blacklist good
       exchanges exchange_ids candle_ids chain s
     = (Raise (AssertionError "Received"),
        report_all verbose_print (take 9 stages) pairs_df counted)).
Proof.
  intros Hnd. cbv zeta. split.
  - intros values ->. unfold filter_pairs_default, default_stages. cbv zeta.
    rewrite bind_modify, chain_block, bind_stage.
    rewrite (fee_block verbose_print pairs_df)
      by eauto using apply_opt_subset.
    rewrite bind_stage. done.
  - intros tokens -> Htokens Hser.
    unfold filter_pairs_default, default_stages. cbv zeta.
    rewrite bind_modify, chain_block, bind_stage.
    rewrite (fee_block verbose_print pairs_df)
      by eauto using apply_opt_subset.
    rewrite bind_stage, candle_block, bind_stage by done.
    rewrite exchanges_block, bind_stage, exchange_ids_block, bind_stage.
    rewrite stablecoins_step, bind_modify.
    rewrite derivatives_step, bind_modify.
    rewrite rebases_step, bind_modify.
    rewrite quote_step, bind_modify.
    unfold non_stablecoin_only, without_derivatives, without_rebases,
      by_quote_allow_set.
    rewrite !report_Some. destruct tokens as [|token tokens]; [done|].
    reflexivity.
Qed.

(** An empty collection switches an optional step off: with exchanges,
    exchange ids, candle ids and blacklist all given but empty (the
    blacklist even as a tuple), the run is the run with none of them given.
    The filters called on their own do not skip: with no exchange given
    they return the empty table. *)
Theorem empty_collections_skip_steps_but_empty_the_standalone_filters
    pairs_df max_fee good chain
    (blacklist : PyColl string) (exchanges : PyColl Exchange)
    (exchange_ids candle_ids : PyColl Z) (s : S) :
  items blacklist = [] → items exchanges = [] →
  items exchange_ids = [] → items candle_ids = [] →
  filter_pairs_default pairs_df verbose_print max_fee (Some blacklist) good
    (Some exchanges) (Some exchange_ids) (Some (IdsColl candle_ids)) chain s
  = filter_pairs_default pairs_df verbose_print max_fee None good
      None None None chain s
  ∧ filter_for_exchanges pairs_df exchanges = []
  ∧ filter_for_exchange_ids pairs_df exchange_ids = [].
Proof.
  intros Hbl Hex Hids Hcids. split; [|split].
  - unfold filter_pairs_default. rewrite !coll_bool_items.
    rewrite Hbl, Hex, Hids, Hcids. reflexivity.
  - unfold filter_for_exchanges, loc. rewrite Hex. by apply filter_none.
  - unfold filter_for_exchange_ids, loc. rewrite Hids. by apply filter_none.
Qed.

End Pipeline.
End FilterExtras.

(** * Further properties of the cache transport *)

Module CacheExtras.
Import OsPath Cache PathFacts CacheFacts StringFacts.

Section Transport.
Context `{Environment}.
Implicit Types (t : CachedHTTPTransport) (w : World) (st : St).

(** Resolved cache paths are absolute whatever the configured cache path
    and the working directory are.  A file name that is itself absolute is
    used as it is, the cache root playing no part; any other name is put
    under the root. *)
Theorem get_cached_file_path_is_absolute t fname :
  isabs (get_abs_cache_path t) = true
  ∧ isabs (get_cached_file_path t fname) = true
  ∧ (isabs fname = true → get_cached_file_path t fname = fname)
  ∧ (isabs fname = false →
     get_cached_file_path t fname = get_abs_cache_path t +:+ "/" +:+ fname
     ∨ (endswith_sep (get_abs_cache_path t) = true
        ∧ get_cached_file_path t fname = get_abs_cache_path t +:+ fname)).
Proof.
  split; [apply abspath_isabs|]. split; [apply get_cached_file_path_isabs|].
  split; [apply join_abs_right|].
  intros Hrel. unfold get_cached_file_path, join. unfold isabs in Hrel.
  rewrite Hrel.
  destruct (isabs_inv _ (abspath_isabs (cache_path t))) as [rest Hroot].
  unfold get_abs_cache_path. rewrite Hroot.
  rewrite bool_decide_false by done. rewrite orb_false_l.
  destruct (endswith_sep (String "/" rest)); [right|left]; done.
Qed.

Lemma join_inj root f1 f2 :
  isabs f1 = false → isabs f2 = false → join root f1 = join root f2 → f1 = f2.
Proof.
  unfold join, isabs. intros -> ->.
  destruct (_ || _); intros Heq.
  - by apply String.app_inj in Heq.
  - by apply String.app_inj, String.app_inj in Heq.
Qed.

(** Cache files never collide: two file names that do not start with a
    slash resolve to the same path only when they are the same name, two
    buckets share a candle file or a liquidity file only when they are the
    same bucket, and no file of one dataset kind is a file of another. *)
Theorem cache_files_do_not_collide t :
  let candles b := "candles-" +:+ b +:+ ".parquet" in
  let liquidity b := "liquidity-samples-" +:+ b +:+ ".parquet" in
  let path := get_cached_file_path t in
  (∀ f1 f2, isabs f1 = false → isabs f2 = false → path f1 = path f2 → f1 = f2)
  ∧ (∀ b1 b2, path (candles b1) = path (candles b2) → b1 = b2)
  ∧ (∀ b1 b2, path (liquidity b1) = path (liquidity b2) → b1 = b2)
  ∧ (∀ b1 b2, path (candles b1) ≠ path (liquidity b2))
  ∧ (∀ b, path (candles b) ≠ path "pair-universe.parquet"
          ∧ path (candles b) ≠ path "exchange-universe.json"
          ∧ path (liquidity b) ≠ path "pair-universe.parquet"
          ∧ path (liquidity b) ≠ path "exchange-universe.json")
  ∧ path "pair-universe.parquet" ≠ path "exchange-universe.json".
Proof.
  cbv zeta.
  assert (Hinj : ∀ f1 f2, isabs f1 = false → isabs f2 = false →
            get_cached_file_path t f1 = get_cached_file_path t f2 → f1 = f2)
    by (intros f1 f2; apply join_inj).
  split; [done|]. split; [|split].
  - intros b1 b2 Heq%Hinj; [|done..].
    apply String.app_inj in Heq. by apply append_inj_l in Heq.
  - intros b1 b2 Heq%Hinj; [|done..].
    apply String.app_inj in Heq. by apply append_inj_l in Heq.
  - split; [|split].
    + intros b1 b2 Heq%Hinj; done.
    + intros b. repeat split; intros Heq%Hinj; done.
    + intros Heq%Hinj; done.
Qed.

(** Waiting never revives a cache entry.  With the files unchanged, a
    lookup that finds nothing stale-free now finds nothing at any later
    clock reading, and content found at the later reading was found, the
    same, at the earlier one. *)
Theorem cache_expiry_is_monotone t fname w w' :
  fs w' = fs w → clock w ≤ clock w' →
  (get_cached_item t fname w = Ok None → get_cached_item t fname w' = Ok None)
  ∧ (∀ h, get_cached_item t fname w' = Ok (Some h) →
          get_cached_item t fname w = Ok (Some h)).
Proof.
  intros Hfs Hclock. unfold get_cached_item, open_rb, os_lookup. rewrite Hfs.
  destruct (fs w !! _) as [[m|content m]|]; simpl; [| |done].
  - repeat case_bool_decide; try done; lia.
  - repeat case_bool_decide; try done; lia.
Qed.

(** A lookup raises only when a directory sits at the resolved path: it
    then raises [IsADirectoryError] while the directory is within the cache
    period, and reports nothing once it is older. *)
Theorem get_cached_item_raises_only_on_directory t fname w :
  (∀ e, get_cached_item t fname w = Raise e →
     e = IsADirectoryError
     ∧ ∃ m, os_lookup w (get_cached_file_path t fname) = Some (Dir m)
            ∧ clock w - m ≤ cache_period t)
  ∧ (∀ m, os_lookup w (get_cached_file_path t fname) = Some (Dir m) →
       get_cached_item t fname w
       = if bool_decide (clock w - m > cache_period t) then Ok None
         else Raise IsADirectoryError)
  ∧ (os_lookup w (get_cached_file_path t fname) = None →
     get_cached_item t fname w = Ok None).
Proof.
  unfold get_cached_item, open_rb.
  destruct (os_lookup w _) as [[m|content m]|]; simpl.
  - split; [|split; [|done]].
    + intros e. case_bool_decide; [done|]. intros [= <-].
      split; [done|]. exists m. split; [done|lia].
    + intros m' [= <-]. by case_bool_decide.
  - split; [|split; [done|done]]. intros e. by case_bool_decide.
  - done.
Qed.

Lemma dirs_upto_last seen rest : seen +:+ rest ∈ dirs_upto seen rest.
Proof.
  revert seen. induction rest as [|c rest IH]; intros seen; simpl.
  - rewrite append_nil_r. by left.
  - case_bool_decide as Hc.
    + subst c. apply elem_of_app. right.
      replace (seen +:+ String "/" rest) with ((seen +:+ "/") +:+ rest)
        by by rewrite append_assoc.
      apply IH.
    + replace (seen +:+ String c rest) with ((seen +:+ String c "") +:+ rest)
        by by rewrite append_assoc.
      apply IH.
Qed.

Lemma mkdirs_outcome dirs w r w' :
  mkdirs dirs w = (r, w') →
  (r = Ok () ∧ ∀ d, d ∈ dirs → ∃ m, fs w' !! d = Some (Dir m))
  ∨ r = Raise FileExistsError ∨ r = Raise NotADirectoryError.
Proof.
  revert w. induction dirs as [|d dirs IH]; intros w; simpl.
  - intros [= <- <-]. left. split; [done|]. by intros d ?%elem_of_nil.
  - destruct (fs w !! d) as [[m|content m]|] eqn:Hd.
    + intros Hrest. destruct (IH _ Hrest) as [[-> Hdirs]|Herr]; [|by right].
      left. split; [done|]. intros d' [->|Hd']%elem_of_cons; [|by apply Hdirs].
      destruct (mkdirs_frame _ _ _ _ d Hrest) as [Hsame|[Hnone _]];
        [rewrite Hsame; eauto|congruence].
    + intros [= <- <-]. right. destruct dirs; [by left|by right].
    + intros Hrest. destruct (IH _ Hrest) as [[-> Hdirs]|Herr]; [|by right].
      left. split; [done|]. intros d' [->|Hd']%elem_of_cons; [|by apply Hdirs].
      destruct (mkdirs_frame _ _ _ _ d Hrest) as [Hsame|[Hnone _]].
      * rewrite Hsame. simpl. rewrite lookup_insert_eq. eauto.
      * simpl in Hnone. by rewrite lookup_insert_eq in Hnone.
Qed.

(** [save_response] calls the download function at most once.  When the
    cache root cannot be made because a file is in the way, it raises
    [FileExistsError] or [NotADirectoryError] and does not call it.
    Otherwise it calls it exactly once, in a world where the cache root is
    a directory, and its outcome is the outcome of that call. *)
Theorem save_response_ensures_root_then_downloads_once
    t fpath api_path params_ st :
  let saved := save_response t fpath api_path params_ st in
  let call := {| dl_path := fpath; dl_url := endpoint t +:+ "/" +:+ api_path;
                 dl_params := params_ |} in
  ((saved.1 = Raise FileExistsError ∨ saved.1 = Raise NotADirectoryError)
   ∧ downloads saved.2 = downloads st)
  ∨ (∃ w1 m,
       makedirs (get_abs_cache_path t) (world st) = (Ok (), w1)
       ∧ os_lookup w1 (get_abs_cache_path t) = Some (Dir m)
       ∧ download_func t (requests t) fpath (dl_url call) params_ w1
         = (saved.1, world saved.2)
       ∧ downloads saved.2 = (downloads st ++ [call])%list).
Proof.
  cbv zeta. unfold save_response. rewrite in_world_bind.
  destruct (makedirs (get_abs_cache_path t) (world st)) as [[[]|e] w1] eqn:Hmk.
  - right. unfold makedirs in Hmk.
    destruct (mkdirs_outcome _ _ _ _ Hmk) as [[_ Hdirs]|[?|?]]; [|done..].
    destruct (Hdirs (abspath (get_abs_cache_path t))) as [m Hm];
      [exact (dirs_upto_last "" (abspath (get_abs_cache_path t)))|].
    unfold call_download_func. simpl.
    destruct (download_func t _ _ _ _ w1) as [r w2] eqn:Hdl. simpl.
    by exists w1, m.
  - left. unfold makedirs in Hmk.
    destruct (mkdirs_outcome _ _ _ _ Hmk) as [[? _]|Herr]; [done|].
    simpl. split; [|done]. destruct Herr as [[= ->]|[= ->]]; auto.
Qed.

Lemma fetch_failed_download t fname api params_ relookup st w1 w2 e :
  let path := get_cached_file_path t fname in
  let url_ := endpoint t +:+ "/" +:+ api in
  let fetch : M St (option FileHandle) :=
    cached ← read (get_cached_item t fname);
    match cached with
    | Some _ => mret cached
    | None =>
        save_response t path api params_;;
        read (get_cached_item t relookup)
    end in
  let call := {| dl_path := path; dl_url := url_; dl_params := params_ |} in
  get_cached_item t fname (world st) = Ok None →
  makedirs (get_abs_cache_path t) (world st) = (Ok (), w1) →
  download_func t (requests t) path url_ params_ w1 = (Raise e, w2) →
  fetch st = (Raise e,
              {| world := w2; downloads := (downloads st ++ [call])%list |}).
Proof.
  intros path url_ fetch call Hmiss Hmk Hdl.
  unfold fetch. rewrite (read_bind _ _ _ None) by done.
  unfold save_response. rewrite bind_assoc_at, in_world_bind, Hmk.
  unfold mbind, M_bind, call_download_func. simpl. fold url_ path.
  by rewrite Hdl.
Qed.

(** A fetch does not fall back to stale content and does not retry.  When
    the lookup reports nothing, be the entry absent or expired, and the
    download function raises, each of the four fetches raises the same
    exception after that one call, whatever is still in the cache. *)
Theorem fetch_propagates_download_failure t bucket st w1 w2 e :
  let failing (fname api : string) (params_ : option (gmap string string))
              (fetch : M St (option FileHandle)) :=
    let path := get_cached_file_path t fname in
    let url_ := endpoint t +:+ "/" +:+ api in
    let call := {| dl_path := path; dl_url := url_; dl_params := params_ |} in
    get_cached_item t fname (world st) = Ok None →
    makedirs (get_abs_cache_path t) (world st) = (Ok (), w1) →
    download_func t (requests t) path url_ params_ w1 = (Raise e, w2) →
    fetch st = (Raise e,
                {| world := w2; downloads := (downloads st ++ [call])%list |}) in
  failing "pair-universe.parquet" "pair-universe" None (fetch_pair_universe t)
  ∧ failing "exchange-universe.json" "exchange-universe" None
            (fetch_exchange_universe t)
  ∧ failing ("candles-" +:+ bucket +:+ ".parquet") "candles-all"
            (Some {[ "bucket" := bucket ]}) (fetch_candles_all_time t bucket)
  ∧ failing ("liquidity-samples-" +:+ bucket +:+ ".parquet") "liquidity-all"
            (Some {[ "bucket" := bucket ]}) (fetch_liquidity_all_time t bucket).
Proof.
  cbv zeta. split; [|split; [|split]]; intros Hmiss Hmk Hdl.
  1-2: by apply (fetch_failed_download t _ _ _ _ st w1 w2 e).
  all: by apply (fetch_failed_download t _ _ _ (get_cached_file_path t _)
                   st w1 w2 e).
Qed.

(** Fetching twice downloads once.  After a fetch that missed and stored,
    the same fetch finds the entry and returns the same content without
    another call of the download function. *)
Theorem fetch_again_hits_the_cache t bucket st w2 content written :
  let twice (fname api : string) (params_ : option (gmap string string))
            (fetch : M St (option FileHandle)) :=
    let path := get_cached_file_path t fname in
    let url_ := endpoint t +:+ "/" +:+ api in
    let call := {| dl_path := path; dl_url := url_; dl_params := params_ |} in
    let after := {| world := w2; downloads := (downloads st ++ [call])%list |} in
    let h := {| h_path := path; h_content := content |} in
    get_cached_item t fname (world st) = Ok None →
    stores t path url_ params_ (world st) w2 content written →
    (fetch;; fetch) st = (Ok (Some h), after)
    ∧ downloads_during (fetch;; fetch) st = [call] in
  twice "pair-universe.parquet" "pair-universe" None (fetch_pair_universe t)
  ∧ twice "exchange-universe.json" "exchange-universe" None
          (fetch_exchange_universe t)
  ∧ twice ("candles-" +:+ bucket +:+ ".parquet") "candles-all"
          (Some {[ "bucket" := bucket ]}) (fetch_candles_all_time t bucket)
  ∧ twice ("liquidity-samples-" +:+ bucket +:+ ".parquet") "liquidity-all"
          (Some {[ "bucket" := bucket ]}) (fetch_liquidity_all_time t bucket).
Proof.
  cbv zeta.
  assert (Hgen : ∀ fname api params_ relookup,
    relookup = fname ∨ relookup = get_cached_file_path t fname →
    let fetch : M St (option FileHandle) :=
      cached ← read (get_cached_item t fname);
      match cached with
      | Some _ => mret cached
      | None =>
          save_response t (get_cached_file_path t fname) api params_;;
          read (get_cached_item t relookup)
      end in
    let call := {| dl_path := get_cached_file_path t fname;
                   dl_url := endpoint t +:+ "/" +:+ api;
                   dl_params := params_ |} in
    get_cached_item t fname (world st) = Ok None →
    stores t (get_cached_file_path t fname) (endpoint t +:+ "/" +:+ api)
      params_ (world st) w2 content written →
    (fetch;; fetch) st
    = (Ok (Some {| h_path := get_cached_file_path t fname;
                   h_content := content |}),
       {| world := w2; downloads := (downloads st ++ [call])%list |})
    ∧ downloads_during (fetch;; fetch) st = [call]).
  { intros fname api params_ relookup Hre fetch call Hmiss Hstore.
    destruct (fetch_miss t fname api params_ relookup st w2 content written
                Hre Hmiss Hstore) as [Hfirst _].
    fold fetch call in Hfirst.
    assert (Hrun : (fetch;; fetch) st
      = (Ok (Some {| h_path := get_cached_file_path t fname;
                     h_content := content |}),
         {| world := w2; downloads := (downloads st ++ [call])%list |})).
    { unfold mbind at 1, M_bind at 1. rewrite Hfirst.
      apply fetch_hit. simpl.
      destruct Hstore as (w1 & _ & _ & Hfile & Hfresh).
      by apply (get_cached_item_fresh t fname w2 content written). }
    split; [done|]. unfold downloads_during. rewrite Hrun. simpl.
    by rewrite drop_app_length. }
  split; [|split; [|split]]; intros Hmiss Hstore.
  1-2: by apply (Hgen _ _ _ _ (or_introl eq_refl)).
  all: by apply (Hgen _ _ _ _ (or_intror eq_refl)).
Qed.

Lemma negative_period_lookup t fname w :
  cache_period t < 0 →
  (∀ path f, os_lookup w path = Some f → st_mtime f ≤ clock w) →
  get_cached_item t fname w = Ok None.
Proof.
  intros Hneg Hpast. unfold get_cached_item.
  destruct (os_lookup w _) as [f|] eqn:Hf; [|done]. simpl.
  apply Hpast in Hf. by rewrite bool_decide_true by lia.
Qed.

(** A negative cache period switches the cache off and makes fetching
    useless.  No file modified at or before the clock reading is ever
    handed out; so, when files are never dated in the future, every fetch
    calls the download function and, the download done, returns [None]. *)
Theorem negative_cache_period_never_returns_content t bucket st w1 w2 :
  let past (w : World) :=
    ∀ path f, os_lookup w path = Some f → st_mtime f ≤ clock w in
  let useless (fname api : string) (params_ : option (gmap string string))
              (fetch : M St (option FileHandle)) :=
    let path := get_cached_file_path t fname in
    let url_ := endpoint t +:+ "/" +:+ api in
    let call := {| dl_path := path; dl_url := url_; dl_params := params_ |} in
    makedirs (get_abs_cache_path t) (world st) = (Ok (), w1) →
    download_func t (requests t) path url_ params_ w1 = (Ok (), w2) →
    fetch st = (Ok None,
                {| world := w2; downloads := (downloads st ++ [call])%list |}) in
  cache_period t < 0 → past (world st) → past w2 →
  (∀ fname, get_cached_item t fname (world st) = Ok None
            ∧ get_cached_item t fname w2 = Ok None)
  ∧ useless "pair-universe.parquet" "pair-universe" None (fetch_pair_universe t)
  ∧ useless "exchange-universe.json" "exchange-universe" None
            (fetch_exchange_universe t)
  ∧ useless ("candles-" +:+ bucket +:+ ".parquet") "candles-all"
            (Some {[ "bucket" := bucket ]}) (fetch_candles_all_time t bucket)
  ∧ useless ("liquidity-samples-" +:+ bucket +:+ ".parquet") "liquidity-all"
            (Some {[ "bucket" := bucket ]}) (fetch_liquidity_all_time t bucket).
Proof.
  cbv zeta. intros Hneg Hpast Hpast2.
  assert (Hgen : ∀ fname api params_ relookup,
    let fetch : M St (option FileHandle) :=
      cached ← read (get_cached_item t fname);
      match cached with
      | Some _ => mret cached
      | None =>
          save_response t (get_cached_file_path t fname) api params_;;
          read (get_cached_item t relookup)
      end in
    makedirs (get_abs_cache_path t) (world st) = (Ok (), w1) →
    download_func t (requests t) (get_cached_file_path t fname)
      (endpoint t +:+ "/" +:+ api) params_ w1 = (Ok (), w2) →
    fetch st
    = (Ok None,
       {| world := w2;
          downloads := (downloads st
                        ++ [{| dl_path := get_cached_file_path t fname;
                               dl_url := endpoint t +:+ "/" +:+ api;
                               dl_params := params_ |}])%list |})).
  { intros fname api params_ relookup fetch Hmk Hdl. unfold fetch.
    rewrite (read_bind _ _ _ None) by by apply negative_period_lookup.
    unfold save_response. rewrite bind_assoc_at, in_world_bind, Hmk.
    unfold mbind, M_bind, call_download_func. simpl. rewrite Hdl.
    unfold read. simpl. f_equal. by apply negative_period_lookup. }
  split; [by split; apply negative_period_lookup|].
  split; [|split; [|split]]; intros Hmk Hdl; by apply Hgen.
Qed.

(** A JSON call sends one GET request to the resource under the endpoint
    (the production host unless a non-empty endpoint was given), with the
    API key as [Authorization] header when a non-empty key was given and no
    header otherwise.  No response raises [ConnectionError], a status of
    400 or more raises [APIError] with the body, a body that does not
    decode raises [JSONDecodeError], and otherwise the decoded body is
    returned. *)
Theorem get_json_response_outcomes
    download_func_ endpoint_ cache_period_ cache_path_ api_key api_path params_ w :
  let t := __init__ download_func_ endpoint_ cache_period_ cache_path_ api_key in
  let host :=
    match endpoint_ with
    | Some e => if bool_decide (e = "")
                then "https://candlelightdinner.tradingstrategy.ai" else e
    | None => "https://candlelightdinner.tradingstrategy.ai"
    end in
  let authorization : gmap string string :=
    match api_key with
    | Some key => if bool_decide (key = "") then ∅
                  else {[ "Authorization" := key ]}
    | None => ∅
    end in
  let req := {| method := "GET"; url := host +:+ "/" +:+ api_path;
                params := params_; headers := authorization |} in
  get_json_response t api_path params_ w
  = match http w req with
    | None => Raise ConnectionError
    | Some response =>
        if bool_decide (400 ≤ status_code response)
        then Raise (APIError (text response))
        else match json_loads (text response) with
             | Some value => Ok value
             | None => Raise JSONDecodeError
             end
    end.
Proof.
  cbv zeta. unfold get_json_response, session_request. simpl.
  assert (Hhost : (match endpoint_ with
                   | Some e => if bool_decide (e ≠ "") then e
                               else "https://candlelightdinner.tradingstrategy.ai"
                   | None => "https://candlelightdinner.tradingstrategy.ai"
                   end)
                  = match endpoint_ with
                    | Some e => if bool_decide (e = "")
                                then "https://candlelightdinner.tradingstrategy.ai"
                                else e
                    | None => "https://candlelightdinner.tradingstrategy.ai"
                    end).
  { destruct endpoint_ as [e|]; [|done]. by repeat case_bool_decide. }
  assert (Hauth : (match api_key with
                   | Some key => if bool_decide (key ≠ "")
                                 then <["Authorization" := key]> (∅ : gmap string string)
                                 else ∅
                   | None => ∅
                   end)
                  = match api_key with
                    | Some key => if bool_decide (key = "") then ∅
                                  else {[ "Authorization" := key ]}
                    | None => ∅
                    end).
  { destruct api_key as [key|]; [|done]. by repeat case_bool_decide. }
  rewrite Hhost, Hauth.
  destruct (http w _) as [response|]; [|done].
  unfold dispatch_hook. rewrite lookup_singleton_eq. unfold exception_hook.
  by case_bool_decide.
Qed.

End Transport.
End CacheExtras.

(** * Candles and the liquidity threshold *)

Module SortFacts.
Import PySort.

Section Sort.
Context {A : Type} (key : A → Z).
Implicit Types (x : A) (l : list A).

#[local] Abbreviation by_key := (λ a b : A, key a ≤ key b).

Lemma insert_by_perm x l : insert_by key x l ≡ₚ x :: l.
Proof.
  induction l as [|y l IH]; simpl; [done|].
  case_bool_decide; [done|]. by rewrite IH, Permutation_swap.
Qed.

Lemma sort_by_perm l : sort_by key l ≡ₚ l.
Proof.
  induction l as [|x l IH]; simpl; [done|]. by rewrite insert_by_perm, IH.
Qed.

Lemma insert_by_sorted x l :
  StronglySorted by_key l → StronglySorted by_key (insert_by key x l).
Proof.
  induction 1 as [|y l Hsorted IH Hall]; simpl.
  - by repeat constructor.
  - case_bool_decide as Hxy.
    + constructor; [by constructor|]. constructor; [done|].
      eapply Forall_impl; [exact Hall|]. simpl. lia.
    + constructor; [done|]. rewrite insert_by_perm.
      constructor; [|done]. lia.
Qed.

Lemma sort_by_sorted l : StronglySorted by_key (sort_by key l).
Proof.
  induction l as [|x l IH]; simpl; [constructor|by apply insert_by_sorted].
Qed.

Lemma insert_by_same_key x l :
  List.filter (λ a, bool_decide (key a = key x)) (insert_by key x l)
  = x :: List.filter (λ a, bool_decide (key a = key x)) l.
Proof.
  induction l as [|y l IH]; simpl.
  - by rewrite bool_decide_true.
  - case_bool_decide as Hxy; simpl.
    + by rewrite (bool_decide_true (key x = key x)).
    + rewrite (bool_decide_false (key y = key x)) by lia. done.
Qed.

Lemma insert_by_other_key x l k :
  key x ≠ k →
  List.filter (λ a, bool_decide (key a = k)) (insert_by key x l)
  = List.filter (λ a, bool_decide (key a = k)) l.
Proof.
  intros Hk. induction l as [|y l IH]; simpl.
  - by rewrite bool_decide_false.
  - case_bool_decide as Hxy; simpl.
    + by rewrite (bool_decide_false (key x = k)).
    + by rewrite IH.
Qed.

Lemma sort_by_stable l k :
  List.filter (λ a, bool_decide (key a = k)) (sort_by key l)
  = List.filter (λ a, bool_decide (key a = k)) l.
Proof.
  induction l as [|x l IH]; simpl; [done|].
  destruct (decide (key x = k)) as [<-|Hk].
  - by rewrite insert_by_same_key, IH, bool_decide_true.
  - by rewrite insert_by_other_key, IH, bool_decide_false.
Qed.

Lemma sort_by_sorted_id l : StronglySorted by_key l → sort_by key l = l.
Proof.
  induction 1 as [|x l Hsorted IH Hall]; simpl; [done|]. rewrite IH.
  destruct l as [|y l]; simpl; [done|].
  apply Forall_cons in Hall as [Hxy _]. by rewrite bool_decide_true.
Qed.

End Sort.
End SortFacts.

Module CandleFacts.
Import Candles SortFacts.

(** [sort_by_timestamp] sorts and does nothing else: afterwards the candles
    are the same candles, each as often as before, in rising timestamp
    order, candles of one timestamp in the order they had; sorting sorted
    candles changes nothing. *)
Theorem sort_by_timestamp_sorts_stably (self : CandleResult) :
  let sorted := sort_by_timestamp self in
  candles sorted ≡ₚ candles self
  ∧ StronglySorted (λ a b, timestamp a ≤ timestamp b) (candles sorted)
  ∧ (∀ ts, List.filter (λ c, bool_decide (timestamp c = ts)) (candles sorted)
           = List.filter (λ c, bool_decide (timestamp c = ts)) (candles self))
  ∧ sort_by_timestamp sorted = sorted
  ∧ (StronglySorted (λ a b, timestamp a ≤ timestamp b) (candles self) →
     sorted = self).
Proof.
  cbv zeta. unfold sort_by_timestamp. simpl.
  split; [apply sort_by_perm|]. split; [apply sort_by_sorted|].
  split; [intros ts; apply sort_by_stable|]. split.
  - f_equal. apply sort_by_sorted_id, sort_by_sorted.
  - intros Hsorted. destruct self as [cs]. simpl in *. f_equal.
    by apply sort_by_sorted_id.
Qed.

Lemma column_dtype_None name fdesc :
  column_dtype name fdesc = None
  ↔ fdesc = TOther ∧ name ≠ "timestamp" ∧ name ≠ "chain_id".
Proof.
  unfold column_dtype. repeat case_bool_decide; destruct fdesc;
    split; try done; intros (? & ? & ?); done.
Qed.

Lemma to_dataframe_Some fields df :
  to_dataframe fields = Some df →
  map fst df = map fst fields
  ∧ ∀ name dtype, (name, dtype) ∈ df →
      ∃ fdesc, (name, fdesc) ∈ fields ∧ column_dtype name fdesc = Some dtype.
Proof.
  revert df. induction fields as [|[name fdesc] fields IH]; intros df; simpl.
  - intros [= <-]. split; [done|]. by intros ?? ?%elem_of_nil.
  - destruct (column_dtype name fdesc) as [pf|] eqn:Hpf; [|done]. simpl.
    destruct (to_dataframe fields) as [df'|]; [|done]. simpl.
    intros [= <-]. destruct (IH df' eq_refl) as [Hnames Hcols].
    split; [simpl; by f_equal|].
    intros n d [[= -> ->]|Hin]%elem_of_cons.
    + exists fdesc. split; [by left|done].
    + destruct (Hcols n d Hin) as (f & Hf & Hd). exists f. split; [by right|done].
Qed.

Lemma to_dataframe_None fields :
  to_dataframe fields = None
  ↔ ∃ name fdesc, (name, fdesc) ∈ fields ∧ column_dtype name fdesc = None.
Proof.
  induction fields as [|[name fdesc] fields IH]; simpl.
  - split; [done|]. by intros (? & ? & ?%elem_of_nil & _).
  - destruct (column_dtype name fdesc) as [pf|] eqn:Hpf; simpl.
    + destruct (to_dataframe fields) as [df'|]; simpl.
      * split; [done|]. intros (n & f & [[= -> ->]|Hin]%elem_of_cons & Hn).
        -- congruence.
        -- destruct IH as [_ IH]. discriminate IH. eauto.
      * split; [|done]. intros _. destruct IH as [(n & f & Hin & Hn) _]; [done|].
        exists n, f. split; [by right|done].
    + split; [|done]. intros _. exists name, fdesc. split; [by left|done].
Qed.

(** [to_dataframe] makes one column per field, in field order.  It fails
    exactly when some field not named [timestamp] or [chain_id] resolves
    to a type other than [int], [float] and [str]; those two names get a
    seconds-resolution datetime column and an integer column whatever their
    annotation. *)
Theorem to_dataframe_columns_follow_fields fields :
  (∀ df, to_dataframe fields = Some df →
     map fst df = map fst fields
     ∧ ∀ name dtype, (name, dtype) ∈ df →
         (name = "timestamp" → dtype = datetime64_s)
         ∧ (name = "chain_id" → dtype = dt_int))
  ∧ (to_dataframe fields = None
     ↔ ∃ name, (name, TOther) ∈ fields
               ∧ name ≠ "timestamp" ∧ name ≠ "chain_id").
Proof.
  split.
  - intros df [Hnames Hcols]%to_dataframe_Some. split; [done|].
    intros name dtype (fdesc & _ & Hd)%Hcols. unfold column_dtype in Hd.
    split; intros ->; simpl in Hd; congruence.
  - rewrite to_dataframe_None. split.
    + intros (name & fdesc & Hin & [-> Hname]%column_dtype_None). eauto.
    + intros (name & Hin & Hname). exists name, TOther.
      split; [done|]. by apply column_dtype_None.
Qed.

End CandleFacts.

Module ApeFacts.
Import ApeInLatest.

Section Threshold.
Context (now_ : Z) (threshold : float) (open_liquidity : Z → gmap Z float).

#[local] Abbreviation liquidity_today := (liquidity_today now_ open_liquidity).
#[local] Abbreviation reaches := (reaches now_ threshold open_liquidity).

Lemma update_exact (reached_state : gmap Z Z) (all_pair_ids : list Z) :
  let '(new_entries, reached_after) :=
    update_pair_liquidity_threshold now_ threshold reached_state all_pair_ids
      open_liquidity in
  ∀ k,
    new_entries !! k
    = (if bool_decide (k ∈ all_pair_ids ∧ reached_state !! k = None ∧ reaches k = true)
       then Some (liquidity_today k) else None)
    ∧ reached_after !! k
      = match reached_state !! k with
        | Some d => Some d
        | None => if bool_decide (k ∈ all_pair_ids ∧ reaches k = true)
                  then Some now_ else None
        end.
Proof.
  unfold update_pair_liquidity_threshold.
  induction all_pair_ids as [|k0 ids IH] using rev_ind.
  - simpl. intros k. rewrite lookup_empty.
    by destruct (reached_state !! k).
  - rewrite fold_left_app. simpl.
    destruct (fold_left _ ids _) as [new_entries reached_after].
    change (match open_liquidity k0 !! now_ with
            | Some v => v
            | None => 0%float
            end) with (liquidity_today k0).
    case_bool_decide as Hk0.
    + destruct (threshold <=? liquidity_today k0)%float eqn:Hreach.
      * intros k. destruct (IH k) as [Hnew Hafter].
        destruct (decide (k = k0)) as [->|Hne].
        -- rewrite !lookup_insert_eq.
           destruct (IH k0) as [_ Hafter0]. rewrite Hk0 in Hafter0.
           destruct (reached_state !! k0) eqn:Hr0; [done|].
           rewrite !bool_decide_true; [done|..];
             rewrite ?elem_of_app, ?list_elem_of_singleton; auto.
        -- rewrite !lookup_insert_ne by done. rewrite Hnew, Hafter.
           split; [apply (f_equal (λ b : bool, if b then _ else _)),
                     bool_decide_ext
                  |destruct (reached_state !! k); [done|];
                   apply (f_equal (λ b : bool, if b then _ else _)),
                     bool_decide_ext];
             rewrite elem_of_app, list_elem_of_singleton;
             intuition (subst; try congruence).
      * intros k. destruct (IH k) as [Hnew Hafter]. rewrite Hnew, Hafter.
        assert (reaches k0 ≠ true) by (unfold ApeInLatest.reaches; congruence).
        split; [apply (f_equal (λ b : bool, if b then _ else _)),
                  bool_decide_ext
               |destruct (reached_state !! k); [done|];
                apply (f_equal (λ b : bool, if b then _ else _)),
                  bool_decide_ext];
          rewrite elem_of_app, list_elem_of_singleton;
             intuition (subst; try congruence).
    + intros k. destruct (IH k) as [Hnew Hafter]. rewrite Hnew, Hafter.
      destruct (IH k0) as [_ Hafter0].
      assert (Hin : reached_state !! k0 ≠ None
                    ∨ (k0 ∈ ids ∧ reaches k0 = true)).
      { destruct (reached_state !! k0); [by left|]. right.
        case_bool_decide; [done|]. congruence. }
      split; [apply (f_equal (λ b : bool, if b then _ else _)),
                bool_decide_ext
             |destruct (reached_state !! k) eqn:Hk; [done|];
              apply (f_equal (λ b : bool, if b then _ else _)),
                bool_decide_ext];
        rewrite elem_of_app, list_elem_of_singleton;
             intuition (subst; try congruence).
Qed.

(** [update_pair_liquidity_threshold] records a first reach and never
    rewrites one.  Every pair already in [reached_state] keeps its date.
    The new entries are exactly the listed pairs that were not in
    [reached_state] and whose open liquidity at [now_] is at least the
    threshold, each with that liquidity; exactly those pairs are added to
    [reached_state], dated [now_]. *)
Theorem update_pair_liquidity_threshold_records_first_reach
    (reached_state : gmap Z Z) (all_pair_ids : list Z) :
  let updated :=
    update_pair_liquidity_threshold now_ threshold reached_state all_pair_ids
      open_liquidity in
  (∀ k d, reached_state !! k = Some d → updated.2 !! k = Some d)
  ∧ (∀ k v, updated.1 !! k = Some v ↔
       k ∈ all_pair_ids ∧ reached_state !! k = None
       ∧ (threshold <=? v)%float = true ∧ v = liquidity_today k)
  ∧ (∀ k, reached_state !! k = None →
       updated.2 !! k = (λ _, now_) <$> updated.1 !! k).
Proof.
  cbv zeta. pose proof (update_exact reached_state all_pair_ids) as Hexact.
  destruct (update_pair_liquidity_threshold _ _ _ _ _)
    as [new_entries reached_after]. simpl.
  split; [|split].
  - intros k d Hk. destruct (Hexact k) as [_ ->]. by rewrite Hk.
  - intros k v. destruct (Hexact k) as [-> _].
    case_bool_decide as Hcond; split.
    + intros [= <-]. destruct Hcond as (? & ? & ?). done.
    + intros (_ & _ & _ & ->). done.
    + done.
    + intros (? & ? & Hv & ->). destruct Hcond. done.
  - intros k Hk. destruct (Hexact k) as [-> ->]. rewrite Hk.
    repeat case_bool_decide; try done; intuition congruence.
Qed.

(** Asking again at the same time finds nothing new: a second call with
    the updated [reached_state] returns no entries and leaves the state as
    it is. *)
Theorem update_pair_liquidity_threshold_again_is_empty
    (reached_state : gmap Z Z) (all_pair_ids : list Z) :
  let updated :=
    update_pair_liquidity_threshold now_ threshold reached_state all_pair_ids
      open_liquidity in
  update_pair_liquidity_threshold now_ threshold updated.2 all_pair_ids
    open_liquidity
  = (∅, updated.2).
Proof.
  cbv zeta. pose proof (update_exact reached_state all_pair_ids) as Hexact.
  destruct (update_pair_liquidity_threshold _ _ reached_state _ _)
    as [new_entries reached_after]. simpl.
  pose proof (update_exact reached_after all_pair_ids) as Hagain.
  destruct (update_pair_liquidity_threshold _ _ reached_after _ _)
    as [new_again reached_again].
  f_equal; apply map_eq; intros k;
    destruct (Hagain k) as [Hnew Hafter]; destruct (Hexact k) as [_ Hk].
  - rewrite Hnew, lookup_empty. rewrite bool_decide_false; [done|].
    intros (Hin & Hnone & Hreach). rewrite Hnone in Hk.
    destruct (reached_state !! k); [done|].
    by rewrite bool_decide_true in Hk.
  - rewrite Hafter. destruct (reached_after !! k) eqn:Hr; [done|].
    rewrite bool_decide_false; [done|]. intros [Hin Hreach].
    destruct (reached_state !! k); [done|].
    by rewrite bool_decide_true in Hk.
Qed.

End Threshold.
End ApeFacts.

(** * Further evaluations on the sample data *)

Module ExtraEvaluations.
Import TokenFilter TokenFilterRest DefaultPipeline OsPath Cache Samples MoreSamples.
Import FilterFacts PipelineFacts PathFacts CacheFacts Evaluations.
Import FilterExtras CacheExtras.

Lemma usdc_address_accepted : addresses_accepted (PySet ["0xusdc"]).
Proof. split; [reflexivity|]. constructor; [reflexivity|constructor]. Defined.

Lemma filter_for_quote_tokens_checks_then_selects_witness :
  addresses_accepted (PySet ["0xusdc"])
  ∧ ∃ out, filter_for_quote_tokens sample_pairs (PySet ["0xusdc"]) = Ok out
      ∧ out `sublist_of` sample_pairs
      ∧ ∀ r, r ∈ out ↔
          r ∈ sample_pairs
          ∧ ((token0_address r ∈ items (PySet ["0xusdc"])
              ∧ token0_symbol r = quote_token_symbol r)
             ∨ (token1_address r ∈ items (PySet ["0xusdc"])
                ∧ token1_symbol r = quote_token_symbol r)).
Proof.
  split; [exact usdc_address_accepted|].
  exact (proj1 (filter_for_quote_tokens_checks_then_selects sample_pairs
                  (PySet ["0xusdc"])) usdc_address_accepted).
Defined.

(** On the sample the quote filter keeps the two pairs quoted in USDC; an
    address with an upper-case letter is refused. *)
Example filter_for_quote_tokens_on_sample :
  filter_for_quote_tokens sample_pairs (PySet ["0xusdc"])
  = Ok [pair 0 "WETH" "USDC" 5; pair 1 "SHIB" "USDC" 100]
  ∧ filter_for_quote_tokens sample_pairs (PyList ["0xUSDC"])
    = Raise (AssertionError "Address was not lowercased").
Proof. split; vm_compute; reflexivity. Qed.

Lemma filter_for_base_tokens_checks_then_selects_witness :
  addresses_accepted (PySet ["0xusdc"])
  ∧ ∃ out, filter_for_base_tokens token0_symbol sample_pairs (PySet ["0xusdc"])
           = Ok out
      ∧ out `sublist_of` sample_pairs
      ∧ ∀ r, r ∈ out ↔
          r ∈ sample_pairs
          ∧ ((token0_address r ∈ items (PySet ["0xusdc"])
              ∧ token0_symbol r = token0_symbol r)
             ∨ (token1_address r ∈ items (PySet ["0xusdc"])
                ∧ token1_symbol r = token0_symbol r)).
Proof.
  split; [exact usdc_address_accepted|].
  exact (proj1 (filter_for_base_tokens_checks_then_selects token0_symbol
                  sample_pairs (PySet ["0xusdc"])) usdc_address_accepted).
Defined.

Lemma sample_run_accepted : accepted sample_pairs None None.
Proof. apply sample_pairs_accepted. intros bl [=]. Defined.

Lemma filter_pairs_default_only_narrows_witness :
  accepted sample_pairs None None
  ∧ ∃ out reports,
      filter_pairs_default sample_pairs record_print (Some 30) None
        (PyTuple DEFAULT_GOOD_QUOTE_TOKENS) None None None (Some ethereum) []
      = (Ok out,
         print_all record_print
           (("Pairs in the input dataset", length sample_pairs) :: reports) [])
      ∧ out `sublist_of` sample_pairs
      ∧ StronglySorted ge (length sample_pairs :: reports.*2)
      ∧ last (length sample_pairs :: reports.*2) = Some (length out).
Proof.
  split; [exact sample_run_accepted|].
  exact (filter_pairs_default_only_narrows record_print sample_pairs (Some 30)
           None (PyTuple DEFAULT_GOOD_QUOTE_TOKENS) None None None
           (Some ethereum) [] sample_run_accepted).
Defined.

Lemma filter_pairs_default_idempotent_witness :
  accepted sample_pairs None None
  ∧ ∃ out,
      (filter_pairs_default sample_pairs record_print (Some 30) None
         (PyTuple DEFAULT_GOOD_QUOTE_TOKENS) None None None None []).1 = Ok out
      ∧ (filter_pairs_default out record_print (Some 30) None
           (PyTuple DEFAULT_GOOD_QUOTE_TOKENS) None None None None []).1
        = Ok out.
Proof.
  split; [exact sample_run_accepted|].
  exact (filter_pairs_default_idempotent record_print sample_pairs (Some 30)
           None (PyTuple DEFAULT_GOOD_QUOTE_TOKENS) None None None None [] []
           sample_run_accepted).
Defined.

Lemma filter_pairs_default_result_is_tradeable_witness :
  accepted sample_pairs None None
  ∧ ∃ out,
      (filter_pairs_default sample_pairs record_print None None
         (PyTuple DEFAULT_GOOD_QUOTE_TOKENS) None None None None []).1 = Ok out
      ∧ (∀ r, r ∈ out →
           ¬ (token0_symbol r ∈ ALL_STABLECOIN_LIKE
              ∧ token1_symbol r ∈ ALL_STABLECOIN_LIKE)
           ∧ is_derivative (token0_symbol r) = false
           ∧ is_derivative (token1_symbol r) = false
           ∧ is_rebase (token0_symbol r) = false
           ∧ is_rebase (token1_symbol r) = false
           ∧ quote_token_symbol r ∈ items (PyTuple DEFAULT_GOOD_QUOTE_TOKENS)
           ∧ any_ord_above_127 (token0_symbol r) = false
           ∧ any_ord_above_127 (token1_symbol r) = false)
      ∧ (items (PyTuple DEFAULT_GOOD_QUOTE_TOKENS) = [] → out = []).
Proof.
  split; [exact sample_run_accepted|].
  exact (filter_pairs_default_result_is_tradeable record_print sample_pairs
           None None (PyTuple DEFAULT_GOOD_QUOTE_TOKENS) None None None None []
           sample_run_accepted).
Defined.

Lemma filter_pairs_default_argument_errors_witness :
  NoDup (map idx sample_pairs)
  ∧ filter_pairs_default sample_pairs record_print (Some 30) None
      (PyTuple DEFAULT_GOOD_QUOTE_TOKENS) None None (Some (IdsSeries [100]))
      None []
    = (Raise ValueError,
       [("Pairs in the input dataset", 3%nat); ("Pairs having a good fee", 2%nat)])
  ∧ filter_pairs_default sample_pairs record_print (Some 30)
      (Some (PyTuple ["SHIB"])) (PyTuple DEFAULT_GOOD_QUOTE_TOKENS)
      None None None None []
    = (Raise (AssertionError "Received"),
       [("Pairs in the input dataset", 3%nat);
        ("Pairs having a good fee", 2%nat);
        ("Pairs that are not stable-stable", 1%nat);
        ("Pairs that are not derivative tokens", 1%nat);
        ("Pairs that are not rebase tokens", 1%nat);
        ("Pairs with good quote token", 1%nat)]).
Proof.
  assert (Hnd : NoDup (map idx sample_pairs)) by exact (proj1 sample_run_accepted).
  split; [exact Hnd|]. split.
  - etransitivity;
      [exact (proj1 (filter_pairs_default_argument_errors record_print
                       sample_pairs (Some 30) None
                       (PyTuple DEFAULT_GOOD_QUOTE_TOKENS) None None
                       (Some (IdsSeries [100])) None [] Hnd) [100] eq_refl)|].
    vm_compute. reflexivity.
  - etransitivity;
      [refine (proj2 (filter_pairs_default_argument_errors record_print
                        sample_pairs (Some 30) (Some (PyTuple ["SHIB"]))
                        (PyTuple DEFAULT_GOOD_QUOTE_TOKENS) None None
                        None None [] Hnd) ["SHIB"] eq_refl _ _); done|].
    vm_compute. reflexivity.
Defined.

Lemma empty_collections_skip_steps_but_empty_the_standalone_filters_witness :
  filter_pairs_default sample_pairs record_print (Some 30) (Some (PyTuple []))
    (PyTuple DEFAULT_GOOD_QUOTE_TOKENS) (Some (PyList [])) (Some (PySet []))
    (Some (IdsColl (PyList []))) None []
  = filter_pairs_default sample_pairs record_print (Some 30) None
      (PyTuple DEFAULT_GOOD_QUOTE_TOKENS) None None None None []
  ∧ filter_for_exchanges sample_pairs (PyList []) = []
  ∧ filter_for_exchange_ids sample_pairs (PySet []) = [].
Proof.
  exact (empty_collections_skip_steps_but_empty_the_standalone_filters
           record_print sample_pairs (Some 30)
           (PyTuple DEFAULT_GOOD_QUOTE_TOKENS) None (PyTuple []) (PyList [])
           (PySet []) (PyList []) [] eq_refl eq_refl eq_refl eq_refl).
Defined.

Lemma cache_expiry_is_monotone_witness :
  fs (cached_at_0 (stale + 1)) = fs (cached_at_0 stale)
  ∧ clock (cached_at_0 stale) ≤ clock (cached_at_0 (stale + 1))
  ∧ (get_cached_item t_complete "pair-universe.parquet" (cached_at_0 stale)
     = Ok None →
     get_cached_item t_complete "pair-universe.parquet" (cached_at_0 (stale + 1))
     = Ok None).
Proof.
  assert (Hfs : fs (cached_at_0 (stale + 1)) = fs (cached_at_0 stale))
    by reflexivity.
  assert (Hclock : clock (cached_at_0 stale) ≤ clock (cached_at_0 (stale + 1)))
    by (vm_compute; discriminate).
  split; [exact Hfs|]. split; [exact Hclock|].
  exact (proj1 (cache_expiry_is_monotone t_complete "pair-universe.parquet"
                  (cached_at_0 stale) (cached_at_0 (stale + 1)) Hfs Hclock)).
Defined.

Lemma nothing_from_the_future (w : World) (f : Node) path :
  map_Forall (λ _ f, st_mtime f ≤ clock w) (fs w) →
  os_lookup w path = Some f → st_mtime f ≤ clock w.
Proof. intros Hall Hf. exact (Hall _ _ Hf). Defined.

Lemma fetch_propagates_download_failure_witness :
  let st := fresh (offline stale) in
  get_cached_item t_complete "pair-universe.parquet" (world st) = Ok None
  ∧ makedirs (get_abs_cache_path t_complete) (world st) = (Ok (), world st)
  ∧ download_func t_complete (requests t_complete) pair_universe_path
      "https://candlelightdinner.tradingstrategy.ai/pair-universe" None
      (world st) = (Raise ConnectionError, world st)
  ∧ fetch_pair_universe t_complete st
    = (Raise ConnectionError,
       {| world := world st;
          downloads :=
            [{| dl_path := pair_universe_path;
                dl_url := "https://candlelightdinner.tradingstrategy.ai/pair-universe";
                dl_params := None |}] |}).
Proof.
  cbv zeta.
  assert (Hmiss : get_cached_item t_complete "pair-universe.parquet"
                    (world (fresh (offline stale))) = Ok None)
    by (vm_compute; reflexivity).
  assert (Hmk : makedirs (get_abs_cache_path t_complete)
                  (world (fresh (offline stale)))
                = (Ok (), world (fresh (offline stale))))
    by (vm_compute; reflexivity).
  assert (Hdl : download_func t_complete (requests t_complete)
                  (get_cached_file_path t_complete "pair-universe.parquet")
                  (endpoint t_complete +:+ "/" +:+ "pair-universe") None
                  (world (fresh (offline stale)))
                = (Raise ConnectionError, world (fresh (offline stale))))
    by (vm_compute; reflexivity).
  split; [exact Hmiss|]. split; [exact Hmk|]. split; [exact Hdl|].
  exact (proj1 (fetch_propagates_download_failure t_complete "1h"
                  (fresh (offline stale)) _ _ ConnectionError)
           Hmiss Hmk Hdl).
Defined.

Lemma fetch_again_hits_the_cache_witness :
  let st := fresh empty_cache in
  let url_ := "https://candlelightdinner.tradingstrategy.ai/candles-all" in
  let params_ := Some {[ "bucket" := "1h" ]} in
  let call := {| dl_path := candles_1h_path; dl_url := url_;
                 dl_params := params_ |} in
  let fetch := fetch_candles_all_time t_complete "1h" in
  get_cached_item t_complete "candles-1h.parquet" (world st) = Ok None
  ∧ stores t_complete candles_1h_path url_ params_ (world st) after_candles_1h
      "PAR1-pair-universe-PAR1" (clock empty_cache)
  ∧ (fetch;; fetch) st
    = (Ok (Some {| h_path := candles_1h_path;
                   h_content := "PAR1-pair-universe-PAR1" |}),
       {| world := after_candles_1h; downloads := [call] |})
  ∧ downloads_during (fetch;; fetch) st = [call].
Proof.
  cbv zeta.
  assert (Hmiss : get_cached_item t_complete "candles-1h.parquet"
                    (world (fresh empty_cache)) = Ok None)
    by (vm_compute; reflexivity).
  assert (Hstore : stores t_complete candles_1h_path
            "https://candlelightdinner.tradingstrategy.ai/candles-all"
            (Some {[ "bucket" := "1h" ]}) (world (fresh empty_cache))
            after_candles_1h "PAR1-pair-universe-PAR1" (clock empty_cache)).
  { exists empty_cache. split; [vm_compute; reflexivity|].
    split; [vm_compute; reflexivity|].
    split; [vm_compute; reflexivity|]. vm_compute. discriminate. }
  split; [exact Hmiss|]. split; [exact Hstore|].
  exact (proj1 (proj2 (proj2 (fetch_again_hits_the_cache t_complete "1h"
                                (fresh empty_cache) after_candles_1h
                                "PAR1-pair-universe-PAR1" (clock empty_cache))))
           Hmiss Hstore).
Defined.

Lemma negative_cache_period_never_returns_content_witness :
  let st := fresh empty_cache in
  let call := {| dl_path := pair_universe_path;
                 dl_url := "https://candlelightdinner.tradingstrategy.ai/pair-universe";
                 dl_params := None |} in
  cache_period t_negative < 0
  ∧ map_Forall (λ _ f, st_mtime f ≤ clock (world st)) (fs (world st))
  ∧ map_Forall (λ _ f, st_mtime f ≤ clock after_pair_universe)
               (fs after_pair_universe)
  ∧ fetch_pair_universe t_negative st
    = (Ok None, {| world := after_pair_universe; downloads := [call] |}).
Proof.
  cbv zeta.
  assert (Hneg : cache_period t_negative < 0) by reflexivity.
  assert (Hpast : map_Forall (λ _ f, st_mtime f ≤ clock empty_cache)
                    (fs empty_cache)).
  { apply (bool_decide_unpack _). vm_compute. exact I. }
  assert (Hpast2 : map_Forall (λ _ f, st_mtime f ≤ clock after_pair_universe)
                     (fs after_pair_universe)).
  { apply (bool_decide_unpack _). vm_compute. exact I. }
  split; [exact Hneg|]. split; [exact Hpast|]. split; [exact Hpast2|].
  refine (proj1 (proj2 (negative_cache_period_never_returns_content t_negative
                          "1h" (fresh empty_cache) empty_cache
                          after_pair_universe Hneg _ _)) _ _).
  - intros path f. apply nothing_from_the_future, Hpast.
  - intros path f. apply nothing_from_the_future, Hpast2.
  - vm_compute. reflexivity.
  - vm_compute. reflexivity.
Defined.

End ExtraEvaluations.
